(** * extract_vst_chunk_data: a shallow embedding and its properties

    The development follows [extract_vst_chunk_data.py]:

    - [TreeSearch]: [find_chunk_data_in_json], the recursive walk over a
      parsed JSON value, on the call stack the interpreter leaves to it;
    - [Driver]: the two halves of [main] that decide something, the
      scene-file selection loop and the copy-or-warn policy;
    - [Duration]: [format_duration_long];
    - [Retention]: [enforce_max_folder_size].

    Python values are modelled as the interpreter has them: [int] is [Z],
    [float] is an IEEE binary64 value ([spec_float]), [str] is [string],
    a [dict] is an association list in insertion order, exceptions are
    explicit results, the depth the interpreter allows to nested calls is a
    number of frames. *)

From Stdlib Require Import ZArith List String Ascii Bool Lia.
From Stdlib Require Import Permutation.
From Stdlib Require Import SpecFloat.
From Stdlib Require Import DecimalString.
From Stdlib Require DecimalPos DecimalFacts.
Import ListNotations.

Local Open Scope string_scope.
Local Open Scope list_scope.

(** ** Python values shared by all components *)

(** The exceptions that the modelled code can raise. *)
Inductive exn : Type :=
| AttributeError
| ValueError
| OverflowError
| EOFError
| RecursionError.

(** Logging levels used by the script. *)
Inductive level : Type := DEBUG | INFO | WARNING | ERROR.

(** The double quote, which the log messages put around a path. *)
Definition dquote : string := String (ascii_of_nat 34) EmptyString.

(** [s.endswith(suffix)] on [str]. *)
Definition endswith (s suffix : string) : bool :=
  let n := String.length s in
  let k := String.length suffix in
  (k <=? n)%nat && String.eqb (substring (n - k) k s) suffix.

(** * Tree Search *)
Module TreeSearch.

(** What [json.load] produces: [None], [bool], [int], [float], [str],
    [list] and [dict].  A [dict] keeps its insertion order, which is the order
    [values()] iterates in. *)
#[local] Unset Elimination Schemes.
Inductive json : Type :=
| JNull
| JBool (b : bool)
| JInt (n : Z)
| JFloat (x : spec_float)
| JStr (s : string)
| JList (elems : list json)
| JDict (items : list (string * json)).
#[local] Set Elimination Schemes.

(** [d.get(key)] as an option: [None] when the key is absent. *)
Fixpoint lookup (key : string) (items : list (string * json)) : option json :=
  match items with
  | [] => None
  | (k, v) :: rest => if String.eqb k key then Some v else lookup key rest
  end.

(** [d.get(key, default)]. *)
Definition dict_get (items : list (string * json)) (key : string) (default : json) : json :=
  match lookup key items with
  | Some v => v
  | None => default
  end.

(** The fixed file name the search looks for. *)
Definition target_suffix : string := "reafir_standalone.dll".

(** [v.endswith(target_suffix)] on an arbitrary value: only [str] has the
    method, every other JSON value raises [AttributeError]. *)
Definition value_endswith (v : json) : option bool :=
  match v with
  | JStr s => Some (endswith s target_suffix)
  | _ => None
  end.

(** [chunk is not None]. *)
Definition is_not_None (v : json) : bool :=
  match v with
  | JNull => false
  | _ => true
  end.

(** The outcome of a call: the list object [found] is shared by the whole
    recursion and mutated in place, so a raised exception leaves in it what had
    been appended before; [Raise] records that content. *)
Inductive result : Type :=
| Return (found : list json)
| Raise (e : exn) (found : list json).

(** The content of the shared list when the call ends, either way. *)
Definition found_of (r : result) : list json :=
  match r with
  | Return found => found
  | Raise _ found => found
  end.

(** Lines 47-51: the test on the mapping itself, before its values are
    visited. *)
Definition visit_dict (items : list (string * json)) (found : list json) : result :=
  match value_endswith (dict_get items "plugin_path" (JStr "")) with
  | None => Raise AttributeError found
  | Some true =>
      let chunk := dict_get items "chunk_data" JNull in
      if is_not_None chunk then Return (found ++ [chunk]) else Return found
  | Some false => Return found
  end.

(** What the calls of built-in methods take from the depth the interpreter
    allows, while they run: this differs between interpreters.  CPython 3.11
    counts a call of [str.endswith] or [obj.values] as one more level of the
    stack, and a call of [obj.get] too until it has specialised the call
    site, which it does once the function has run a few times; CPython from
    3.12 on counts the calls of C functions apart from those of Python
    functions.  [get_levels] is what [obj.get] takes, [method_levels] what
    [str.endswith], [found.append] and [obj.values] take.  A built-in
    function that is counted on every call, as [isinstance] is until its
    call site is specialised, leaves every call one level less, which is one
    frame less in [frames] below. *)
Record interpreter : Type := {
  get_levels : nat;
  method_levels : nat
}.

(** CPython 3.11 once the function has run a few times; an interpreter that
    counts every call of a built-in method, as CPython 3.11 does on the first
    calls of the function; and one that counts none, as CPython 3.12 does. *)
Definition cpython311 : interpreter := {| get_levels := 0; method_levels := 1 |}.
Definition counting : interpreter := {| get_levels := 1; method_levels := 1 |}.
Definition apart : interpreter := {| get_levels := 0; method_levels := 0 |}.

(** [find_chunk_data_in_json(obj, found=None)].

    The interpreter bounds the depth of the call stack
    ([sys.getrecursionlimit()], 1000 unless a program changes it, which this
    one does not), and the function calls itself once per level of nesting of
    the document.  [frames] is the number of nested calls still allowed where
    the function is called: the call takes one of them, and a call with none
    left raises [RecursionError].  On a mapping, [obj.get] on line 48 needs
    [get_levels py] more, and raises [RecursionError] without them; then
    [visit_dict] is lines 48-51: it raises [AttributeError] before
    [endswith] is called when the value is not a string, and otherwise
    [endswith], the first of the other methods, needs [method_levels py],
    and raises [RecursionError] without them, before anything is appended. *)
Fixpoint find_chunk_data_in_json (py : interpreter) (frames : nat) (obj : json)
         (found : option (list json)) {struct obj} : result :=
  let found := match found with None => [] | Some l => l end in
  match frames with
  | O => Raise RecursionError found
  | S frames =>
      match obj with
      | JDict items =>
          if (frames <? get_levels py)%nat then Raise RecursionError found
          else
            match visit_dict items found with
            | Return found' =>
                if (frames <? method_levels py)%nat then Raise RecursionError found
                else
                  (fix values (l : list (string * json)) (found : list json) {struct l}
                     : result :=
                     match l with
                     | [] => Return found
                     | (_, v) :: rest =>
                         match find_chunk_data_in_json py frames v (Some found) with
                         | Return found => values rest found
                         | Raise e found => Raise e found
                         end
                     end) items found'
            | Raise e found' => Raise e found'
            end
      | JList elems =>
          (fix each (l : list json) (found : list json) {struct l} : result :=
             match l with
             | [] => Return found
             | v :: rest =>
                 match find_chunk_data_in_json py frames v (Some found) with
                 | Return found => each rest found
                 | Raise e found => Raise e found
                 end
             end) elems found
      | _ => Return found
      end
  end.

(** The two loops of the function, named so that they can be reasoned about;
    [frames] is what is left for the calls they make. *)
Fixpoint find_in_values (py : interpreter) (frames : nat) (l : list (string * json))
         (found : list json) : result :=
  match l with
  | [] => Return found
  | (_, v) :: rest =>
      match find_chunk_data_in_json py frames v (Some found) with
      | Return found => find_in_values py frames rest found
      | Raise e found => Raise e found
      end
  end.

Fixpoint find_in_elems (py : interpreter) (frames : nat) (l : list json) (found : list json)
  : result :=
  match l with
  | [] => Return found
  | v :: rest =>
      match find_chunk_data_in_json py frames v (Some found) with
      | Return found => find_in_elems py frames rest found
      | Raise e found => Raise e found
      end
  end.

(** [sys.getrecursionlimit()] as the interpreter starts: the whole stack,
    of which the search has what [main] and its caller leave. *)
Definition default_recursion_limit : nat := 1000.

(** The levels of the call stack that the search of [doc] reaches, the call
    on [doc] itself being the first: one more than the deepest of its
    children and, for a mapping, than the calls of the built-in methods. *)
Fixpoint depth (py : interpreter) (doc : json) : nat :=
  S match doc with
    | JDict items =>
        Nat.max (Nat.max (get_levels py) (method_levels py))
          ((fix values (l : list (string * json)) : nat :=
              match l with
              | [] => 0
              | (_, v) :: rest => Nat.max (depth py v) (values rest)
              end) items)
    | JList elems =>
        (fix each (l : list json) : nat :=
           match l with
           | [] => 0
           | v :: rest => Nat.max (depth py v) (each rest)
           end) elems
    | _ => 0
    end%nat.

(** The same walk on a stack that never runs out.  It is what the function
    computes on every document that fits the stack ([find_fits] below), and
    it evaluates on a document whatever the interpreter and [frames] are. *)
Fixpoint unbounded_search (obj : json) (found : option (list json)) {struct obj} : result :=
  let found := match found with None => [] | Some l => l end in
  match obj with
  | JDict items =>
      match visit_dict items found with
      | Return found =>
          (fix values (l : list (string * json)) (found : list json) {struct l} : result :=
             match l with
             | [] => Return found
             | (_, v) :: rest =>
                 match unbounded_search v (Some found) with
                 | Return found => values rest found
                 | Raise e found => Raise e found
                 end
             end) items found
      | Raise e found => Raise e found
      end
  | JList elems =>
      (fix each (l : list json) (found : list json) {struct l} : result :=
         match l with
         | [] => Return found
         | v :: rest =>
             match unbounded_search v (Some found) with
             | Return found => each rest found
             | Raise e found => Raise e found
             end
         end) elems found
  | _ => Return found
  end.

Fixpoint unbounded_values (l : list (string * json)) (found : list json) : result :=
  match l with
  | [] => Return found
  | (_, v) :: rest =>
      match unbounded_search v (Some found) with
      | Return found => unbounded_values rest found
      | Raise e found => Raise e found
      end
  end.

Fixpoint unbounded_elems (l : list json) (found : list json) : result :=
  match l with
  | [] => Return found
  | v :: rest =>
      match unbounded_search v (Some found) with
      | Return found => unbounded_elems rest found
      | Raise e found => Raise e found
      end
  end.

(** *** The words of the specification *)

(** All the values of a document in depth-first pre-order: a value comes
    first, then what its children list, children in iteration order. *)
Fixpoint preorder (doc : json) : list json :=
  doc ::
  match doc with
  | JDict items =>
      (fix values (l : list (string * json)) : list json :=
         match l with
         | [] => []
         | (_, v) :: rest => preorder v ++ values rest
         end) items
  | JList elems =>
      (fix each (l : list json) : list json :=
         match l with
         | [] => []
         | v :: rest => preorder v ++ each rest
         end) elems
  | _ => []
  end.

(** A qualifying mapping has a string [plugin_path] ending in the suffix and
    a [chunk_data] that is present and not null; [chunk_of] is that payload. *)
Definition chunk_of (v : json) : option json :=
  match v with
  | JDict items =>
      match lookup "plugin_path" items with
      | Some (JStr p) =>
          if endswith p target_suffix then
            match lookup "chunk_data" items with
            | Some JNull => None
            | Some c => Some c
            | None => None
            end
          else None
      | _ => None
      end
  | _ => None
  end.

Definition qualifies (v : json) : bool :=
  match chunk_of v with
  | Some _ => true
  | None => false
  end.

(** The qualifying mappings of a document, in traversal order. *)
Definition qualifying_mappings (doc : json) : list json :=
  filter qualifies (preorder doc).

(** The Match Set the specification describes. *)
Definition own_chunk (v : json) : list json :=
  match chunk_of v with
  | Some c => [c]
  | None => []
  end.

Definition match_set (doc : json) : list json :=
  flat_map own_chunk (preorder doc).

(** A mapping is well typed when its [plugin_path], if present, is a string. *)
Definition plugin_path_is_str (v : json) : bool :=
  match v with
  | JDict items =>
      match lookup "plugin_path" items with
      | Some (JStr _) => true
      | Some _ => false
      | None => true
      end
  | _ => true
  end.

Definition plugin_paths_are_str (doc : json) : bool :=
  forallb plugin_path_is_str (preorder doc).

(** The behaviour of one call on a stack that never runs out, as the two
    loops need it. *)
Definition unbounded_behaves (doc : json) : Prop :=
  forall found,
    if plugin_paths_are_str doc
    then unbounded_search doc (Some found) = Return (found ++ match_set doc)
    else exists l, unbounded_search doc (Some found) = Raise AttributeError (found ++ l).

(** *** Documents used as examples *)

(** [{"plugin_path": p, "chunk_data": c}]. *)
Definition entry (p : string) (c : json) : json :=
  JDict [("plugin_path", JStr p); ("chunk_data", c)].

(** The document of the specification's traversal example. *)
Definition two_entries : json :=
  JDict [("a", entry "...reafir_standalone.dll" (JStr "X"));
         ("b", JList [entry "...reafir_standalone.dll" (JStr "Y")])].

(** [[{"plugin_path": "reafir_standalone.dll", "chunk_data": "X"},
      {"plugin_path": 5}]]. *)
Definition one_entry_then_number : json :=
  JList [entry "reafir_standalone.dll" (JStr "X"); JDict [("plugin_path", JInt 5)]].

(** [[entry X, {"plugin_path": null}, entry Y]]. *)
Definition two_entries_around_null : json :=
  JList [entry "reafir_standalone.dll" (JStr "X");
         JDict [("plugin_path", JNull)];
         entry "reafir_standalone.dll" (JStr "Y")].

(** [{"plugin_path": "foo/reafir_standalone.dll"}]. *)
Definition path_without_chunk : json :=
  JDict [("plugin_path", JStr "foo/reafir_standalone.dll")].

(** [[{"plugin_path": "foo/reafir_standalone.dll"}, {"plugin_path": true}]]. *)
Definition no_entry_then_bool : json :=
  JList [path_without_chunk; JDict [("plugin_path", JBool true)]].

(** A scene-like document: one filter entry deep inside, other plugins around. *)
Definition small_scene : json :=
  JDict [("name", JStr "Scene");
         ("sources",
          JList [JDict [("id", JStr "wasapi_input_capture");
                        ("filters",
                         JList [JDict [("plugin_path", JStr "C:/VST/other.dll");
                                       ("chunk_data", JStr "no")];
                                entry "C:/VST/reafir_standalone.dll" (JStr "Zm9v")])];
                 JInt 3; JNull])].

(** [[{"plugin_path": 5},
      {"plugin_path": "reafir_standalone.dll", "chunk_data": "X"}]]. *)
Definition number_then_entry : json :=
  JList [JDict [("plugin_path", JInt 5)]; entry "reafir_standalone.dll" (JStr "X")].

(** [doc] inside [n] sequences of one element: [[[...[doc]...]]]. *)
Fixpoint nested (n : nat) (doc : json) : json :=
  match n with
  | O => doc
  | S n => JList [nested n doc]
  end.

(** Documents nested deeper than the default recursion limit: an empty
    sequence, one entry and the two-entry document, each inside 1500
    sequences. *)
Definition deep_lists : json := nested 1500 (JList []).
Definition deep_entry : json := nested 1500 (entry "reafir_standalone.dll" (JStr "X")).
Definition deep_two_entries : json := nested 1500 two_entries.

(** *** Statements tested on single documents *)

(** The search returns the single payload whenever the document has exactly
    one qualifying mapping. *)
Definition returns_single_payload (py : interpreter) (frames : nat) (doc : json) : Prop :=
  forall m c,
    qualifying_mappings doc = [m] -> chunk_of m = Some c ->
    find_chunk_data_in_json py frames doc None = Return [c].

(** The search returns exactly the pre-order Match Set, one element per
    qualifying mapping. *)
Definition returns_preorder_matches (py : interpreter) (frames : nat) (doc : json) : Prop :=
  find_chunk_data_in_json py frames doc None = Return (match_set doc)
  /\ List.length (match_set doc) = List.length (qualifying_mappings doc).

(** A document without qualifying mapping gives the empty Match Set. *)
Definition returns_nothing_without_entry (py : interpreter) (frames : nat) (doc : json) : Prop :=
  qualifying_mappings doc = [] ->
  find_chunk_data_in_json py frames doc None = Return [].

(** The search returns a Match Set whenever every [plugin_path] of the
    document is a string. *)
Definition returns_when_paths_are_str (py : interpreter) (frames : nat) (doc : json) : Prop :=
  plugin_paths_are_str doc = true ->
  exists ms, find_chunk_data_in_json py frames doc None = Return ms.

(** The search leaves in the list the [chunk_data] of every mapping of the
    document whose [plugin_path] ends with the suffix, when it is not null. *)
Definition appends_every_chunk (py : interpreter) (frames : nat) (doc : json) : Prop :=
  forall items p c,
    In (JDict items) (preorder doc) ->
    lookup "plugin_path" items = Some (JStr p) ->
    endswith p target_suffix = true ->
    lookup "chunk_data" items = Some c ->
    c <> JNull ->
    In c (found_of (find_chunk_data_in_json py frames doc None)).

(** *** Structural induction through the nested lists *)
Section json_induction.
Variable P : json -> Prop.
Hypothesis P_null : P JNull.
Hypothesis P_bool : forall b, P (JBool b).
Hypothesis P_int : forall n, P (JInt n).
Hypothesis P_float : forall x, P (JFloat x).
Hypothesis P_str : forall s, P (JStr s).
Hypothesis P_list : forall elems, (forall v, In v elems -> P v) -> P (JList elems).
Hypothesis P_dict : forall items, (forall k v, In (k, v) items -> P v) -> P (JDict items).

Fixpoint json_induction (doc : json) : P doc :=
  match doc with
  | JNull => P_null
  | JBool b => P_bool b
  | JInt n => P_int n
  | JFloat x => P_float x
  | JStr s => P_str s
  | JList elems =>
      P_list elems
        ((fix each (l : list json) : forall v, In v l -> P v :=
            match l with
            | [] => fun v (H : In v []) => match H with end
            | x :: rest => fun v (H : In v (x :: rest)) =>
                match H with
                | or_introl e => eq_ind x P (json_induction x) v e
                | or_intror H' => each rest v H'
                end
            end) elems)
  | JDict items =>
      P_dict items
        ((fix values (l : list (string * json)) : forall k v, In (k, v) l -> P v :=
            match l with
            | [] => fun k v (H : In (k, v) []) => match H with end
            | (k0, x) :: rest => fun k v (H : In (k, v) ((k0, x) :: rest)) =>
                match H with
                | or_introl e =>
                    eq_ind x P (json_induction x) v (f_equal snd e)
                | or_intror H' => values rest k v H'
                end
            end) items)
  end.
End json_induction.

(** *** Unfolding equations *)

Lemma unbounded_None (obj : json) :
  unbounded_search obj None = unbounded_search obj (Some []).
Proof. destruct obj; reflexivity. Qed.

Lemma unbounded_dict (items : list (string * json)) (found : list json) :
  unbounded_search (JDict items) (Some found) =
  match visit_dict items found with
  | Return found' => unbounded_values items found'
  | Raise e found' => Raise e found'
  end.
Proof. reflexivity. Qed.

Lemma unbounded_list (elems : list json) (found : list json) :
  unbounded_search (JList elems) (Some found) = unbounded_elems elems found.
Proof. reflexivity. Qed.

Lemma preorder_dict (items : list (string * json)) :
  preorder (JDict items) = JDict items :: flat_map (fun kv => preorder (snd kv)) items.
Proof.
  simpl. f_equal.
  induction items as [|[k v] rest IH]; simpl; [reflexivity|].
  now rewrite IH.
Qed.

Lemma preorder_list (elems : list json) :
  preorder (JList elems) = JList elems :: flat_map preorder elems.
Proof. reflexivity. Qed.

Lemma match_set_dict (items : list (string * json)) :
  match_set (JDict items) =
  own_chunk (JDict items) ++ flat_map (fun kv => match_set (snd kv)) items.
Proof.
  unfold match_set. rewrite preorder_dict. cbn [flat_map]. f_equal.
  induction items as [|[k v] rest IH]; [reflexivity|].
  cbn [flat_map snd]. now rewrite flat_map_app, IH.
Qed.

Lemma match_set_list (elems : list json) :
  match_set (JList elems) = flat_map match_set elems.
Proof.
  unfold match_set. rewrite preorder_list. cbn [flat_map own_chunk chunk_of app].
  induction elems as [|v rest IH]; [reflexivity|].
  cbn [flat_map]. now rewrite flat_map_app, IH.
Qed.

Lemma plugin_paths_are_str_dict (items : list (string * json)) :
  plugin_paths_are_str (JDict items) =
  plugin_path_is_str (JDict items)
  && forallb (fun kv => plugin_paths_are_str (snd kv)) items.
Proof.
  unfold plugin_paths_are_str. rewrite preorder_dict. cbn [forallb]. f_equal.
  induction items as [|[k v] rest IH]; [reflexivity|].
  cbn [flat_map forallb snd]. now rewrite forallb_app, IH.
Qed.

Lemma plugin_paths_are_str_list (elems : list json) :
  plugin_paths_are_str (JList elems) = forallb plugin_paths_are_str elems.
Proof.
  unfold plugin_paths_are_str. rewrite preorder_list.
  cbn [forallb plugin_path_is_str andb].
  induction elems as [|v rest IH]; [reflexivity|].
  cbn [flat_map forallb]. now rewrite forallb_app, IH.
Qed.

(** *** [endswith] is the suffix test *)

Lemma string_length_append (s t : string) :
  String.length (s ++ t)%string = (String.length s + String.length t)%nat.
Proof. induction s as [|c s IH]; cbn; [reflexivity|now rewrite IH]. Qed.

Lemma substring_whole (s : string) : substring 0 (String.length s) s = s.
Proof. induction s as [|c s IH]; cbn; [reflexivity|now rewrite IH]. Qed.

Lemma substring_skip (pre s : string) (k : nat) :
  substring (String.length pre) k (pre ++ s)%string = substring 0 k s.
Proof. induction pre as [|c pre IH]; cbn; [reflexivity|exact IH]. Qed.

Lemma substring_split (s : string) :
  forall a, (a <= String.length s)%nat ->
  s = (substring 0 a s ++ substring a (String.length s - a) s)%string.
Proof.
  induction s as [|c s IH]; intros [|a] Ha; cbn in *; try lia.
  - reflexivity.
  - now rewrite substring_whole.
  - f_equal. apply IH. lia.
Qed.

Lemma endswith_iff (s suffix : string) :
  endswith s suffix = true <-> exists pre, s = (pre ++ suffix)%string.
Proof.
  unfold endswith. split.
  - intros H. apply andb_true_iff in H. destruct H as [Hle He].
    apply Nat.leb_le in Hle. apply String.eqb_eq in He.
    exists (substring 0 (String.length s - String.length suffix) s).
    pose proof (substring_split s (String.length s - String.length suffix)) as Hs.
    replace (String.length s - (String.length s - String.length suffix))%nat
      with (String.length suffix) in Hs by lia.
    rewrite He in Hs. apply Hs. lia.
  - intros [pre ->]. rewrite string_length_append. apply andb_true_iff. split.
    + apply Nat.leb_le. lia.
    + replace (String.length pre + String.length suffix - String.length suffix)%nat
        with (String.length pre) by lia.
      rewrite substring_skip, substring_whole. apply String.eqb_refl.
Qed.

(** *** The test on the mapping itself *)

Lemma visit_dict_str (items : list (string * json)) (found : list json) :
  plugin_path_is_str (JDict items) = true ->
  visit_dict items found = Return (found ++ own_chunk (JDict items)).
Proof.
  unfold visit_dict, dict_get, own_chunk, chunk_of, plugin_path_is_str.
  destruct (lookup "plugin_path" items) as [[]|]; intros H; try discriminate H.
  - cbn [value_endswith]. destruct (endswith s target_suffix).
    + destruct (lookup "chunk_data" items) as [[]|]; cbn; now rewrite ?app_nil_r.
    + now rewrite app_nil_r.
  - cbn. now rewrite app_nil_r.
Qed.

Lemma visit_dict_not_str (items : list (string * json)) (found : list json) :
  plugin_path_is_str (JDict items) = false ->
  visit_dict items found = Raise AttributeError found.
Proof.
  unfold visit_dict, dict_get, plugin_path_is_str.
  destruct (lookup "plugin_path" items) as [[]|]; intros H;
    try discriminate H; reflexivity.
Qed.

(** *** What the walk computes when the stack never runs out *)

Lemma unbounded_elems_behaves (elems : list json) :
  (forall v, In v elems -> unbounded_behaves v) ->
  forall found,
    if forallb plugin_paths_are_str elems
    then unbounded_elems elems found = Return (found ++ flat_map match_set elems)
    else exists l, unbounded_elems elems found = Raise AttributeError (found ++ l).
Proof.
  induction elems as [|v rest IH]; intros Hall found.
  - cbn. now rewrite app_nil_r.
  - cbn [forallb unbounded_elems flat_map].
    pose proof (Hall v (or_introl eq_refl) found) as Hv.
    destruct (plugin_paths_are_str v); cbn [andb].
    + rewrite Hv.
      specialize (IH (fun w Hw => Hall w (or_intror Hw)) (found ++ match_set v)).
      destruct (forallb plugin_paths_are_str rest).
      * now rewrite IH, app_assoc.
      * destruct IH as [l IH]. exists (match_set v ++ l).
        now rewrite IH, app_assoc.
    + destruct Hv as [l Hv]. exists l. now rewrite Hv.
Qed.

Lemma unbounded_values_behaves (items : list (string * json)) :
  (forall k v, In (k, v) items -> unbounded_behaves v) ->
  forall found,
    if forallb (fun kv => plugin_paths_are_str (snd kv)) items
    then unbounded_values items found
         = Return (found ++ flat_map (fun kv => match_set (snd kv)) items)
    else exists l, unbounded_values items found = Raise AttributeError (found ++ l).
Proof.
  induction items as [|[k v] rest IH]; intros Hall found.
  - cbn. now rewrite app_nil_r.
  - cbn [forallb unbounded_values flat_map snd].
    pose proof (Hall k v (or_introl eq_refl) found) as Hv.
    destruct (plugin_paths_are_str v); cbn [andb].
    + rewrite Hv.
      specialize (IH (fun k' w Hw => Hall k' w (or_intror Hw)) (found ++ match_set v)).
      destruct (forallb (fun kv => plugin_paths_are_str (snd kv)) rest).
      * now rewrite IH, app_assoc.
      * destruct IH as [l IH]. exists (match_set v ++ l).
        now rewrite IH, app_assoc.
    + destruct Hv as [l Hv]. exists l. now rewrite Hv.
Qed.

Lemma unbounded_behaves_all (doc : json) : unbounded_behaves doc.
Proof.
  induction doc as [| | | | |elems IH|items IH] using json_induction;
    intros found; try (cbn; now rewrite app_nil_r).
  - rewrite plugin_paths_are_str_list, unbounded_list, match_set_list.
    apply unbounded_elems_behaves, IH.
  - rewrite plugin_paths_are_str_dict, unbounded_dict, match_set_dict.
    destruct (plugin_path_is_str (JDict items)) eqn:Hstr; cbn [andb].
    + rewrite (visit_dict_str _ _ Hstr).
      pose proof (unbounded_values_behaves items IH (found ++ own_chunk (JDict items))) as Hv.
      destruct (forallb _ items).
      * now rewrite Hv, app_assoc.
      * destruct Hv as [l Hv]. exists (own_chunk (JDict items) ++ l).
        now rewrite Hv, app_assoc.
    + rewrite (visit_dict_not_str _ _ Hstr). exists []. now rewrite app_nil_r.
Qed.

(** When every [plugin_path] is a string the walk returns, with the Match Set
    appended to what [found] held. *)
Lemma unbounded_returns (doc : json) (found : list json) :
  plugin_paths_are_str doc = true ->
  unbounded_search doc (Some found) = Return (found ++ match_set doc).
Proof.
  intros H. pose proof (unbounded_behaves_all doc found) as Hb. now rewrite H in Hb.
Qed.

(** Otherwise it raises [AttributeError], after appending what it met first. *)
Lemma unbounded_raises (doc : json) (found : list json) :
  plugin_paths_are_str doc = false ->
  exists l, unbounded_search doc (Some found) = Raise AttributeError (found ++ l).
Proof.
  intros H. pose proof (unbounded_behaves_all doc found) as Hb. now rewrite H in Hb.
Qed.

(** One element of the Match Set per qualifying mapping. *)
Lemma match_set_length (doc : json) :
  List.length (match_set doc) = List.length (qualifying_mappings doc).
Proof.
  unfold match_set, qualifying_mappings, own_chunk, qualifies.
  induction (preorder doc) as [|v l IH]; [reflexivity|].
  cbn [flat_map filter]. destruct (chunk_of v); cbn; now rewrite IH.
Qed.

(** The Match Set lists the payloads of the qualifying mappings, in order. *)
Lemma match_set_chunks (doc : json) :
  map Some (match_set doc) = map chunk_of (qualifying_mappings doc).
Proof.
  unfold match_set, qualifying_mappings, own_chunk, qualifies.
  induction (preorder doc) as [|v l IH]; [reflexivity|].
  cbn [flat_map filter]. destruct (chunk_of v) eqn:E; cbn; now rewrite ?E, IH.
Qed.

(** *** The search on the interpreter's stack *)

Lemma find_None (py : interpreter) (frames : nat) (obj : json) :
  find_chunk_data_in_json py frames obj None
  = find_chunk_data_in_json py frames obj (Some []).
Proof. destruct obj; reflexivity. Qed.

(** A call that has no frame left raises, and the list is as it was. *)
Lemma find_no_frames (py : interpreter) (obj : json) (found : list json) :
  find_chunk_data_in_json py 0 obj (Some found) = Raise RecursionError found.
Proof. destruct obj; reflexivity. Qed.

Lemma values_loop (py : interpreter) (frames : nat) (items : list (string * json)) :
  forall found,
    (fix values (l : list (string * json)) (found : list json) {struct l} : result :=
       match l with
       | [] => Return found
       | (_, v) :: rest =>
           match find_chunk_data_in_json py frames v (Some found) with
           | Return found => values rest found
           | Raise e found => Raise e found
           end
       end) items found
    = find_in_values py frames items found.
Proof.
  induction items as [|[k v] rest IH]; intros found; [reflexivity|].
  cbn [find_in_values].
  destruct (find_chunk_data_in_json py frames v (Some found)); [apply IH|reflexivity].
Qed.

Lemma elems_loop (py : interpreter) (frames : nat) (elems : list json) :
  forall found,
    (fix each (l : list json) (found : list json) {struct l} : result :=
       match l with
       | [] => Return found
       | v :: rest =>
           match find_chunk_data_in_json py frames v (Some found) with
           | Return found => each rest found
           | Raise e found => Raise e found
           end
       end) elems found
    = find_in_elems py frames elems found.
Proof.
  induction elems as [|v rest IH]; intros found; [reflexivity|].
  cbn [find_in_elems].
  destruct (find_chunk_data_in_json py frames v (Some found)); [apply IH|reflexivity].
Qed.

Lemma find_dict (py : interpreter) (frames : nat) (items : list (string * json))
      (found : list json) :
  find_chunk_data_in_json py (S frames) (JDict items) (Some found) =
  if (frames <? get_levels py)%nat then Raise RecursionError found
  else
    match visit_dict items found with
    | Return found' =>
        if (frames <? method_levels py)%nat then Raise RecursionError found
        else find_in_values py frames items found'
    | Raise e found' => Raise e found'
    end.
Proof.
  destruct (frames <? get_levels py)%nat eqn:Hg.
  - cbn [find_chunk_data_in_json]. now rewrite Hg.
  - destruct (visit_dict items found) as [a|e a] eqn:Ev.
    + destruct (frames <? method_levels py)%nat eqn:Hm.
      * cbn [find_chunk_data_in_json]. now rewrite Hg, Ev, Hm.
      * rewrite <- values_loop. cbn [find_chunk_data_in_json]. now rewrite Hg, Ev, Hm.
    + cbn [find_chunk_data_in_json]. now rewrite Hg, Ev.
Qed.

Lemma find_list (py : interpreter) (frames : nat) (elems : list json) (found : list json) :
  find_chunk_data_in_json py (S frames) (JList elems) (Some found)
  = find_in_elems py frames elems found.
Proof. exact (elems_loop py frames elems found). Qed.

Lemma depth_list (py : interpreter) (elems : list json) :
  depth py (JList elems) = S (list_max (map (depth py) elems)).
Proof.
  simpl. f_equal. induction elems as [|v rest IH]; simpl; [reflexivity|].
  now rewrite IH.
Qed.

Lemma depth_dict (py : interpreter) (items : list (string * json)) :
  depth py (JDict items)
  = S (Nat.max (Nat.max (get_levels py) (method_levels py))
                (list_max (map (fun kv => depth py (snd kv)) items))).
Proof.
  simpl. do 2 f_equal. induction items as [|[k v] rest IH]; simpl; [reflexivity|].
  now rewrite IH.
Qed.

Lemma depth_pos (py : interpreter) (doc : json) : 1 <= depth py doc.
Proof. destruct doc; simpl; lia. Qed.

(** **** A document that fits the stack is searched as on an unbounded one *)

Lemma find_in_elems_fits (py : interpreter) (frames : nat) (elems : list json) :
  (forall v, In v elems ->
     forall found, find_chunk_data_in_json py frames v (Some found)
                   = unbounded_search v (Some found)) ->
  forall found, find_in_elems py frames elems found = unbounded_elems elems found.
Proof.
  induction elems as [|v rest IH]; intros Hall found; [reflexivity|].
  cbn [find_in_elems unbounded_elems]. rewrite (Hall v (or_introl eq_refl)).
  destruct (unbounded_search v (Some found)); [|reflexivity].
  apply IH. intros w Hw. apply Hall. now right.
Qed.

Lemma find_in_values_fits (py : interpreter) (frames : nat) (items : list (string * json)) :
  (forall k v, In (k, v) items ->
     forall found, find_chunk_data_in_json py frames v (Some found)
                   = unbounded_search v (Some found)) ->
  forall found, find_in_values py frames items found = unbounded_values items found.
Proof.
  induction items as [|[k v] rest IH]; intros Hall found; [reflexivity|].
  cbn [find_in_values unbounded_values]. rewrite (Hall k v (or_introl eq_refl)).
  destruct (unbounded_search v (Some found)); [|reflexivity].
  apply IH. intros k' w Hw. apply (Hall k' w). now right.
Qed.

Lemma find_fits (py : interpreter) (doc : json) :
  forall frames found,
    depth py doc <= frames ->
    find_chunk_data_in_json py frames doc (Some found)
    = unbounded_search doc (Some found).
Proof.
  induction doc as [| | | | |elems IH|items IH] using json_induction;
    intros frames found Hd;
    (destruct frames as [|frames];
     [match type of Hd with ?d <= 0 => assert (1 <= d) by apply depth_pos end; lia|]);
    try reflexivity.
  - rewrite depth_list in Hd. apply le_S_n, list_max_le in Hd.
    rewrite Forall_forall in Hd.
    rewrite find_list, unbounded_list. apply find_in_elems_fits.
    intros v Hv found'. apply (IH v Hv). apply Hd. now apply in_map.
  - rewrite depth_dict in Hd. apply le_S_n in Hd.
    assert (Hg : get_levels py <= frames) by lia.
    assert (Hb : method_levels py <= frames) by lia.
    assert (Hm : list_max (map (fun kv => depth py (snd kv)) items) <= frames) by lia.
    apply list_max_le in Hm. rewrite Forall_forall in Hm.
    rewrite find_dict, unbounded_dict, (proj2 (Nat.ltb_ge _ _) Hg).
    destruct (visit_dict items found); [|reflexivity].
    rewrite (proj2 (Nat.ltb_ge _ _) Hb).
    apply find_in_values_fits. intros k v Hv found'. apply (IH k v Hv).
    apply Hm. now apply (in_map (fun kv => depth py (snd kv)) _ (k, v)).
Qed.

Lemma find_fits_None (py : interpreter) (frames : nat) (doc : json) :
  depth py doc <= frames ->
  find_chunk_data_in_json py frames doc None = unbounded_search doc None.
Proof.
  intros Hd. now rewrite find_None, unbounded_None, (find_fits _ _ _ _ Hd).
Qed.

(** **** A search that returns has fitted the stack *)

Lemma find_in_elems_return (py : interpreter) (frames : nat) (elems : list json) :
  (forall v, In v elems ->
     forall found ms, find_chunk_data_in_json py frames v (Some found) = Return ms ->
                      depth py v <= frames) ->
  forall found ms,
    find_in_elems py frames elems found = Return ms ->
    Forall (fun k => k <= frames) (map (depth py) elems).
Proof.
  induction elems as [|v rest IH]; intros Hall found ms E; [constructor|].
  cbn [find_in_elems] in E.
  destruct (find_chunk_data_in_json py frames v (Some found)) as [l|e l] eqn:Ev;
    [|discriminate E].
  constructor.
  - apply (Hall v (or_introl eq_refl) _ _ Ev).
  - apply (IH (fun w Hw => Hall w (or_intror Hw)) l ms E).
Qed.

Lemma find_in_values_return (py : interpreter) (frames : nat) (items : list (string * json)) :
  (forall k v, In (k, v) items ->
     forall found ms, find_chunk_data_in_json py frames v (Some found) = Return ms ->
                      depth py v <= frames) ->
  forall found ms,
    find_in_values py frames items found = Return ms ->
    Forall (fun k => k <= frames) (map (fun kv => depth py (snd kv)) items).
Proof.
  induction items as [|[k v] rest IH]; intros Hall found ms E; [constructor|].
  cbn [find_in_values] in E.
  destruct (find_chunk_data_in_json py frames v (Some found)) as [l|e l] eqn:Ev;
    [|discriminate E].
  constructor.
  - apply (Hall k v (or_introl eq_refl) _ _ Ev).
  - apply (IH (fun k' w Hw => Hall k' w (or_intror Hw)) l ms E).
Qed.

Lemma find_return_fits (py : interpreter) (doc : json) :
  forall frames found ms,
    find_chunk_data_in_json py frames doc (Some found) = Return ms ->
    depth py doc <= frames.
Proof.
  induction doc as [| | | | |elems IH|items IH] using json_induction;
    intros frames found ms E;
    (destruct frames as [|frames]; [rewrite find_no_frames in E; discriminate E|]);
    try (simpl; lia).
  - rewrite depth_list. apply le_n_S, list_max_le.
    rewrite find_list in E.
    apply (find_in_elems_return _ _ _ (fun v Hv => IH v Hv frames) _ _ E).
  - rewrite find_dict in E.
    destruct (frames <? get_levels py)%nat eqn:Hg; [discriminate E|].
    apply Nat.ltb_ge in Hg.
    destruct (visit_dict items found) as [l|e l]; [|discriminate E].
    destruct (frames <? method_levels py)%nat eqn:Hb; [discriminate E|].
    apply Nat.ltb_ge in Hb.
    rewrite depth_dict. apply le_n_S, Nat.max_lub; [now apply Nat.max_lub|].
    apply list_max_le, (find_in_values_return _ _ _ (fun k v Hv => IH k v Hv frames) _ _ E).
Qed.

(** **** Either way the shared list only grows *)

Lemma visit_dict_extends (items : list (string * json)) (found : list json) :
  exists l, found_of (visit_dict items found) = found ++ l.
Proof.
  destruct (plugin_path_is_str (JDict items)) eqn:Hstr.
  - rewrite (visit_dict_str _ _ Hstr). now eexists.
  - rewrite (visit_dict_not_str _ _ Hstr). exists []. cbn. now rewrite app_nil_r.
Qed.

Lemma find_in_elems_extends (py : interpreter) (frames : nat) (elems : list json) :
  (forall v, In v elems ->
     forall found, exists l,
       found_of (find_chunk_data_in_json py frames v (Some found)) = found ++ l) ->
  forall found, exists l, found_of (find_in_elems py frames elems found) = found ++ l.
Proof.
  induction elems as [|v rest IH]; intros Hall found.
  - exists []. cbn. now rewrite app_nil_r.
  - cbn [find_in_elems]. destruct (Hall v (or_introl eq_refl) found) as [l Hl].
    destruct (find_chunk_data_in_json py frames v (Some found)) as [a|e a];
      cbn [found_of] in Hl; subst a.
    + destruct (IH (fun w Hw => Hall w (or_intror Hw)) (found ++ l)) as [l' Hl'].
      exists (l ++ l'). now rewrite Hl', app_assoc.
    + now exists l.
Qed.

Lemma find_in_values_extends (py : interpreter) (frames : nat) (items : list (string * json)) :
  (forall k v, In (k, v) items ->
     forall found, exists l,
       found_of (find_chunk_data_in_json py frames v (Some found)) = found ++ l) ->
  forall found, exists l, found_of (find_in_values py frames items found) = found ++ l.
Proof.
  induction items as [|[k v] rest IH]; intros Hall found.
  - exists []. cbn. now rewrite app_nil_r.
  - cbn [find_in_values]. destruct (Hall k v (or_introl eq_refl) found) as [l Hl].
    destruct (find_chunk_data_in_json py frames v (Some found)) as [a|e a];
      cbn [found_of] in Hl; subst a.
    + destruct (IH (fun k' w Hw => Hall k' w (or_intror Hw)) (found ++ l)) as [l' Hl'].
      exists (l ++ l'). now rewrite Hl', app_assoc.
    + now exists l.
Qed.

Lemma find_extends (py : interpreter) (doc : json) :
  forall frames found,
    exists l, found_of (find_chunk_data_in_json py frames doc (Some found)) = found ++ l.
Proof.
  induction doc as [| | | | |elems IH|items IH] using json_induction;
    intros frames found;
    (destruct frames as [|frames];
     [rewrite find_no_frames; exists []; cbn; now rewrite app_nil_r|]);
    try (exists []; cbn; now rewrite app_nil_r).
  - rewrite find_list. apply find_in_elems_extends.
    intros v Hv found'. apply (IH v Hv frames).
  - rewrite find_dict. destruct (frames <? get_levels py)%nat.
    + exists []. cbn. now rewrite app_nil_r.
    + destruct (visit_dict_extends items found) as [l Hl].
      destruct (visit_dict items found) as [a|e a]; cbn [found_of] in Hl; subst a.
      * destruct (frames <? method_levels py)%nat.
        { exists []. cbn. now rewrite app_nil_r. }
        destruct (find_in_values_extends py frames items
                    (fun k v Hv found' => IH k v Hv frames found') (found ++ l))
          as [l' Hl'].
        exists (l ++ l'). now rewrite Hl', app_assoc.
      * now exists l.
Qed.

(** **** The exceptions of the search *)

(** The search raises [AttributeError] only on a [plugin_path] that is not a
    string, and nothing else than it and [RecursionError]. *)
Lemma find_in_elems_exn (py : interpreter) (frames : nat) (elems : list json) :
  (forall v, In v elems ->
     forall found e l, find_chunk_data_in_json py frames v (Some found) = Raise e l ->
                       e = RecursionError
                       \/ (e = AttributeError /\ plugin_paths_are_str v = false)) ->
  forall found e l,
    find_in_elems py frames elems found = Raise e l ->
    e = RecursionError
    \/ (e = AttributeError /\ forallb plugin_paths_are_str elems = false).
Proof.
  induction elems as [|v rest IH]; intros Hall found e l E; [discriminate E|].
  cbn [find_in_elems] in E. cbn [forallb].
  destruct (find_chunk_data_in_json py frames v (Some found)) as [a|e' a] eqn:Ev.
  - destruct (IH (fun w Hw => Hall w (or_intror Hw)) a e l E) as [H|[H1 H2]];
      [now left|right]. split; [exact H1|]. rewrite H2. apply andb_false_r.
  - injection E as -> ->.
    destruct (Hall v (or_introl eq_refl) _ _ _ Ev) as [H|[H1 H2]]; [now left|right].
    split; [exact H1|]. now rewrite H2.
Qed.

Lemma find_in_values_exn (py : interpreter) (frames : nat) (items : list (string * json)) :
  (forall k v, In (k, v) items ->
     forall found e l, find_chunk_data_in_json py frames v (Some found) = Raise e l ->
                       e = RecursionError
                       \/ (e = AttributeError /\ plugin_paths_are_str v = false)) ->
  forall found e l,
    find_in_values py frames items found = Raise e l ->
    e = RecursionError
    \/ (e = AttributeError
        /\ forallb (fun kv => plugin_paths_are_str (snd kv)) items = false).
Proof.
  induction items as [|[k v] rest IH]; intros Hall found e l E; [discriminate E|].
  cbn [find_in_values] in E. cbn [forallb snd].
  destruct (find_chunk_data_in_json py frames v (Some found)) as [a|e' a] eqn:Ev.
  - destruct (IH (fun k' w Hw => Hall k' w (or_intror Hw)) a e l E) as [H|[H1 H2]];
      [now left|right]. split; [exact H1|]. rewrite H2. apply andb_false_r.
  - injection E as -> ->.
    destruct (Hall k v (or_introl eq_refl) _ _ _ Ev) as [H|[H1 H2]]; [now left|right].
    split; [exact H1|]. now rewrite H2.
Qed.

Lemma find_exn (py : interpreter) (doc : json) :
  forall frames found e l,
    find_chunk_data_in_json py frames doc (Some found) = Raise e l ->
    e = RecursionError \/ (e = AttributeError /\ plugin_paths_are_str doc = false).
Proof.
  induction doc as [| | | | |elems IH|items IH] using json_induction;
    intros frames found e l E;
    (destruct frames as [|frames];
     [rewrite find_no_frames in E; injection E as <- _; now left|]);
    try discriminate E.
  - rewrite find_list in E. rewrite plugin_paths_are_str_list.
    apply (find_in_elems_exn _ _ _ (fun v Hv => IH v Hv frames) _ _ _ E).
  - rewrite find_dict in E. rewrite plugin_paths_are_str_dict.
    destruct (frames <? get_levels py)%nat; [injection E as <- _; now left|].
    destruct (plugin_path_is_str (JDict items)) eqn:Hstr.
    + rewrite (visit_dict_str _ _ Hstr) in E. cbn [andb].
      destruct (frames <? method_levels py)%nat; [injection E as <- _; now left|].
      apply (find_in_values_exn _ _ _ (fun k v Hv => IH k v Hv frames) _ _ _ E).
    + rewrite (visit_dict_not_str _ _ Hstr) in E. injection E as <- _. now right.
Qed.

(** **** What the search computes *)

(** When every [plugin_path] is a string and the document fits the stack the
    call returns, with the Match Set appended to what [found] held. *)
Lemma find_returns (py : interpreter) (frames : nat) (doc : json) (found : list json) :
  plugin_paths_are_str doc = true ->
  depth py doc <= frames ->
  find_chunk_data_in_json py frames doc (Some found) = Return (found ++ match_set doc).
Proof.
  intros Hstr Hd. rewrite (find_fits _ _ _ _ Hd). now apply unbounded_returns.
Qed.

(** A document that fits the stack and has a [plugin_path] that is not a
    string raises [AttributeError], after appending what it met first. *)
Lemma find_raises (py : interpreter) (frames : nat) (doc : json) (found : list json) :
  plugin_paths_are_str doc = false ->
  depth py doc <= frames ->
  exists l,
    find_chunk_data_in_json py frames doc (Some found) = Raise AttributeError (found ++ l).
Proof.
  intros Hstr Hd. rewrite (find_fits _ _ _ _ Hd). now apply unbounded_raises.
Qed.

(** A document that does not fit the stack raises. *)
Lemma find_too_deep (py : interpreter) (frames : nat) (doc : json) (found : list json) :
  frames < depth py doc ->
  exists e l,
    find_chunk_data_in_json py frames doc (Some found) = Raise e (found ++ l).
Proof.
  intros Hd. destruct (find_extends py doc frames found) as [l Hl].
  destruct (find_chunk_data_in_json py frames doc (Some found)) as [a|e a] eqn:E.
  - apply find_return_fits in E. lia.
  - cbn [found_of] in Hl. subst a. now exists e, l.
Qed.

(** The search returns exactly on the documents whose [plugin_path]s are
    strings and that fit the stack. *)
Lemma find_returns_iff (py : interpreter) (frames : nat) (doc : json) :
  (exists ms, find_chunk_data_in_json py frames doc None = Return ms)
  <-> plugin_paths_are_str doc = true /\ depth py doc <= frames.
Proof.
  rewrite find_None. split.
  - intros [ms E]. pose proof (find_return_fits _ _ _ _ _ E) as Hd.
    split; [|exact Hd].
    destruct (plugin_paths_are_str doc) eqn:Hstr; [reflexivity|].
    destruct (find_raises py frames doc [] Hstr Hd) as [l Hl].
    rewrite Hl in E. discriminate E.
  - intros [Hstr Hd]. exists (match_set doc). now rewrite (find_returns _ _ _ _ Hstr Hd).
Qed.

(** **** Documents inside sequences *)

Lemma depth_nested (py : interpreter) (n : nat) (doc : json) :
  depth py (nested n doc) = n + depth py doc.
Proof.
  induction n as [|n IH]; [reflexivity|].
  cbn [nested]. rewrite depth_list. cbn [map list_max fold_right].
  rewrite Nat.max_0_r, IH. reflexivity.
Qed.

Lemma preorder_nested_step (n : nat) (doc : json) :
  preorder (nested (S n) doc) = nested (S n) doc :: preorder (nested n doc).
Proof.
  cbn [nested]. rewrite preorder_list. cbn [flat_map]. now rewrite app_nil_r.
Qed.

Lemma plugin_paths_are_str_nested (n : nat) (doc : json) :
  plugin_paths_are_str (nested n doc) = plugin_paths_are_str doc.
Proof.
  induction n as [|n IH]; [reflexivity|].
  cbn [nested]. rewrite plugin_paths_are_str_list. cbn [forallb].
  now rewrite andb_true_r.
Qed.

Lemma qualifying_mappings_nested (n : nat) (doc : json) :
  qualifying_mappings (nested n doc) = qualifying_mappings doc.
Proof.
  induction n as [|n IH]; [reflexivity|].
  unfold qualifying_mappings in *. rewrite preorder_nested_step. exact IH.
Qed.

Lemma preorder_nested_mem (n : nat) (doc : json) : In doc (preorder (nested n doc)).
Proof.
  induction n as [|n IH].
  - destruct doc; now left.
  - rewrite preorder_nested_step. now right.
Qed.

(** A document inside more sequences than the stack has frames is never
    reached. *)
Lemma nested_too_deep (py : interpreter) (doc : json) :
  forall n frames found,
    frames <= n ->
    find_chunk_data_in_json py frames (nested n doc) found
    = Raise RecursionError (match found with None => [] | Some l => l end).
Proof.
  assert (H0 : forall obj found,
             find_chunk_data_in_json py 0 obj found
             = Raise RecursionError (match found with None => [] | Some l => l end)).
  { intros obj found. destruct obj; reflexivity. }
  induction n as [|n IH]; intros frames found Hle.
  - replace frames with 0 by lia. apply H0.
  - destruct frames as [|frames]; [apply H0|].
    cbn [nested]. destruct found as [found|]; [|rewrite find_None];
      rewrite find_list; cbn [find_in_elems]; rewrite IH by lia; reflexivity.
Qed.

(** *** The claims about the search *)

(** C1, as stated, fails in two ways.  [one_entry_then_number] has exactly
    one qualifying mapping, with payload ["X"], and the search raises
    [AttributeError] on the number held by the second mapping's [plugin_path]
    instead of returning.  [deep_entry], one entry inside 1500 sequences, has
    no other mapping, and the search raises [RecursionError] before it
    reaches the entry, whatever part of the default recursion limit is left
    to it. *)
Lemma single_payload_not_returned :
  (qualifying_mappings one_entry_then_number = [entry "reafir_standalone.dll" (JStr "X")]
   /\ chunk_of (entry "reafir_standalone.dll" (JStr "X")) = Some (JStr "X")
   /\ (forall py frames,
         depth py one_entry_then_number <= frames ->
         find_chunk_data_in_json py frames one_entry_then_number None
         = Raise AttributeError [JStr "X"])
   /\ (forall py frames,
         ~ returns_single_payload py frames one_entry_then_number))
  /\ (plugin_paths_are_str deep_entry = true
      /\ qualifying_mappings deep_entry = [entry "reafir_standalone.dll" (JStr "X")]
      /\ (forall py frames,
            frames <= default_recursion_limit ->
            find_chunk_data_in_json py frames deep_entry None
            = Raise RecursionError []
            /\ ~ returns_single_payload py frames deep_entry)).
Proof.
  assert (Hq : qualifying_mappings deep_entry = [entry "reafir_standalone.dll" (JStr "X")]).
  { unfold deep_entry. now rewrite qualifying_mappings_nested. }
  split; [split; [reflexivity|split; [reflexivity|split]]|split; [|split; [exact Hq|]]].
  - intros py frames Hd. now rewrite (find_fits_None _ _ _ Hd).
  - intros py frames H. specialize (H _ _ eq_refl eq_refl).
    assert (Hr : exists ms,
               find_chunk_data_in_json py frames one_entry_then_number None
               = Return ms) by (eexists; exact H).
    apply find_returns_iff in Hr. destruct Hr as [Hstr _]. discriminate Hstr.
  - unfold deep_entry. now rewrite plugin_paths_are_str_nested.
  - intros py frames Hle.
    assert (Hr : find_chunk_data_in_json py frames deep_entry None
                 = Raise RecursionError []).
    { unfold deep_entry. apply nested_too_deep.
      unfold default_recursion_limit in Hle. lia. }
    split; [exact Hr|].
    intros H. specialize (H _ (JStr "X") Hq eq_refl). rewrite Hr in H. discriminate H.
Qed.

(** C1 (amended): for every Scene Document in which every [plugin_path]
    present is a string, whose nesting fits the call stack the interpreter
    leaves to the search, and which contains exactly one mapping whose
    [plugin_path] ends with the suffix and whose [chunk_data] is present and
    non-null, the search returns the one-element Match Set holding that
    mapping's [chunk_data]. *)
Theorem single_payload_returned (py : interpreter) (frames : nat) (doc m c : json) :
  plugin_paths_are_str doc = true ->
  depth py doc <= frames ->
  qualifying_mappings doc = [m] ->
  chunk_of m = Some c ->
  find_chunk_data_in_json py frames doc None = Return [c].
Proof.
  intros Hstr Hd Hone Hc.
  rewrite find_None, (find_returns _ _ _ _ Hstr Hd). cbn [app]. f_equal.
  pose proof (match_set_chunks doc) as Hm. rewrite Hone in Hm. cbn [map] in Hm.
  rewrite Hc in Hm.
  destruct (match_set doc) as [|x [|y l]]; try discriminate Hm.
  now injection Hm as ->.
Qed.

(** The theorem on [small_scene], which reaches six levels of the stack. *)
Lemma single_payload_returned_witness :
  plugin_paths_are_str small_scene = true
  /\ depth cpython311 small_scene = 6
  /\ qualifying_mappings small_scene = [entry "C:/VST/reafir_standalone.dll" (JStr "Zm9v")]
  /\ find_chunk_data_in_json cpython311 6 small_scene None = Return [JStr "Zm9v"].
Proof.
  split; [reflexivity|]. split; [reflexivity|]. split; [reflexivity|].
  apply (single_payload_returned cpython311 6 small_scene
           (entry "C:/VST/reafir_standalone.dll" (JStr "Zm9v")));
    [reflexivity|apply Nat.leb_le|reflexivity|reflexivity]; reflexivity.
Defined.

(** C2, as stated, fails in two ways.  [two_entries_around_null] has two
    qualifying mappings, and the search raises on the null [plugin_path]
    between them, with only ["X"] appended, instead of returning two
    elements.  [deep_two_entries], the two-entry document inside 1500
    sequences, has two qualifying mappings and every [plugin_path] a string,
    and the search raises [RecursionError] with nothing appended. *)
Lemma preorder_matches_not_returned :
  (List.length (qualifying_mappings two_entries_around_null) = 2%nat
   /\ (forall py frames,
         depth py two_entries_around_null <= frames ->
         find_chunk_data_in_json py frames two_entries_around_null None
         = Raise AttributeError [JStr "X"])
   /\ (forall py frames,
         ~ returns_preorder_matches py frames two_entries_around_null))
  /\ (plugin_paths_are_str deep_two_entries = true
      /\ List.length (qualifying_mappings deep_two_entries) = 2%nat
      /\ (forall py frames,
            frames <= default_recursion_limit ->
            find_chunk_data_in_json py frames deep_two_entries None
            = Raise RecursionError []
            /\ ~ returns_preorder_matches py frames deep_two_entries)).
Proof.
  split; [split; [reflexivity|split]|split; [|split]].
  - intros py frames Hd. now rewrite (find_fits_None _ _ _ Hd).
  - intros py frames [H _].
    assert (Hr : exists ms,
               find_chunk_data_in_json py frames two_entries_around_null None
               = Return ms) by (eexists; exact H).
    apply find_returns_iff in Hr. destruct Hr as [Hstr _]. discriminate Hstr.
  - unfold deep_two_entries. now rewrite plugin_paths_are_str_nested.
  - unfold deep_two_entries. now rewrite qualifying_mappings_nested.
  - intros py frames Hle.
    assert (Hr : find_chunk_data_in_json py frames deep_two_entries None
                 = Raise RecursionError []).
    { unfold deep_two_entries. apply nested_too_deep.
      unfold default_recursion_limit in Hle. lia. }
    split; [exact Hr|]. intros [H _]. rewrite Hr in H. discriminate H.
Qed.

(** C2 (amended): for every Scene Document in which every [plugin_path]
    present is a string and whose nesting fits the call stack the interpreter
    leaves to the search, the search returns the payloads of the qualifying
    mappings in depth-first pre-order (a mapping before its own values, the
    values of a mapping and the elements of a sequence in iteration order:
    the Match Set of a mapping is its own payload followed by the Match Sets
    of its values, that of a sequence the Match Sets of its elements), one
    element per qualifying mapping; the two-entry document of the
    specification gives [["X"; "Y"]], and a payload that is itself a
    qualifying mapping is listed before the payload found inside it. *)
Theorem preorder_matches_returned :
  (forall py frames doc,
      plugin_paths_are_str doc = true ->
      depth py doc <= frames ->
      find_chunk_data_in_json py frames doc None = Return (match_set doc)
      /\ List.length (match_set doc) = List.length (qualifying_mappings doc)
      /\ map Some (match_set doc) = map chunk_of (qualifying_mappings doc))
  /\ (forall items,
        match_set (JDict items)
        = own_chunk (JDict items) ++ flat_map (fun kv => match_set (snd kv)) items)
  /\ (forall elems, match_set (JList elems) = flat_map match_set elems)
  /\ (forall py frames,
        depth py two_entries <= frames ->
        find_chunk_data_in_json py frames two_entries None
        = Return [JStr "X"; JStr "Y"])
  /\ (let inner := entry "b/reafir_standalone.dll" (JStr "in") in
      forall py frames,
        depth py (entry "a/reafir_standalone.dll" inner) <= frames ->
        find_chunk_data_in_json py frames (entry "a/reafir_standalone.dll" inner) None
        = Return [inner; JStr "in"]).
Proof.
  split; [|split; [apply match_set_dict|split; [apply match_set_list|split]]].
  - intros py frames doc Hstr Hd. rewrite find_None, (find_returns _ _ _ _ Hstr Hd).
    split; [reflexivity|]. split; [apply match_set_length|apply match_set_chunks].
  - intros py frames Hd. now rewrite (find_fits_None _ _ _ Hd).
  - intros inner py frames Hd. now rewrite (find_fits_None _ _ _ Hd).
Qed.

(** The general part on [small_scene], and the two-entry document on a stack
    of four frames. *)
Lemma preorder_matches_returned_witness :
  plugin_paths_are_str small_scene = true
  /\ find_chunk_data_in_json cpython311 6 small_scene None = Return (match_set small_scene)
  /\ match_set small_scene = [JStr "Zm9v"]
  /\ find_chunk_data_in_json cpython311 4 two_entries None = Return [JStr "X"; JStr "Y"].
Proof.
  split; [reflexivity|].
  split; [|split; [reflexivity|]].
  - apply (proj1 preorder_matches_returned cpython311 6 small_scene); [reflexivity|].
    apply Nat.leb_le. reflexivity.
  - apply (proj1 (proj2 (proj2 (proj2 preorder_matches_returned))) cpython311 4).
    apply Nat.leb_le. reflexivity.
Defined.

(** C3, as stated, fails in two ways.  [no_entry_then_bool] has no
    qualifying mapping, and the search raises on the boolean [plugin_path]
    instead of returning the empty Match Set.  [deep_lists], an empty
    sequence inside 1500 sequences, has no mapping at all, and the search
    raises [RecursionError]. *)
Lemma nothing_without_entry_not_returned :
  (qualifying_mappings no_entry_then_bool = []
   /\ (forall py frames,
         depth py no_entry_then_bool <= frames ->
         find_chunk_data_in_json py frames no_entry_then_bool None
         = Raise AttributeError [])
   /\ (forall py frames,
         ~ returns_nothing_without_entry py frames no_entry_then_bool))
  /\ (plugin_paths_are_str deep_lists = true
      /\ qualifying_mappings deep_lists = []
      /\ (forall py frames,
            frames <= default_recursion_limit ->
            find_chunk_data_in_json py frames deep_lists None
            = Raise RecursionError []
            /\ ~ returns_nothing_without_entry py frames deep_lists)).
Proof.
  assert (Hq : qualifying_mappings deep_lists = []).
  { unfold deep_lists. now rewrite qualifying_mappings_nested. }
  split; [split; [reflexivity|split]|split; [|split; [exact Hq|]]].
  - intros py frames Hd. now rewrite (find_fits_None _ _ _ Hd).
  - intros py frames H. specialize (H eq_refl).
    assert (Hr : exists ms,
               find_chunk_data_in_json py frames no_entry_then_bool None
               = Return ms) by (eexists; exact H).
    apply find_returns_iff in Hr. destruct Hr as [Hstr _]. discriminate Hstr.
  - unfold deep_lists. now rewrite plugin_paths_are_str_nested.
  - intros py frames Hle.
    assert (Hr : find_chunk_data_in_json py frames deep_lists None
                 = Raise RecursionError []).
    { unfold deep_lists. apply nested_too_deep.
      unfold default_recursion_limit in Hle. lia. }
    split; [exact Hr|]. intros H. specialize (H Hq). rewrite Hr in H. discriminate H.
Qed.

(** C3 (amended): a mapping whose [plugin_path] ends with the suffix and whose
    [chunk_data] is absent or null appends nothing and raises nothing when it
    is tested; for every Scene Document in which every [plugin_path] present
    is a string, whose nesting fits the call stack the interpreter leaves to
    the search, and that has no qualifying mapping, the search returns the
    empty Match Set, as it does on [{"plugin_path": "foo/reafir_standalone.dll"}];
    the test is that the path is some text followed by the suffix, compared
    character by character, so it is case-sensitive. *)
Theorem no_chunk_no_match :
  (forall items p found,
      lookup "plugin_path" items = Some (JStr p) ->
      endswith p target_suffix = true ->
      lookup "chunk_data" items = None \/ lookup "chunk_data" items = Some JNull ->
      visit_dict items found = Return found /\ own_chunk (JDict items) = [])
  /\ (forall py frames doc,
        plugin_paths_are_str doc = true ->
        depth py doc <= frames ->
        qualifying_mappings doc = [] ->
        find_chunk_data_in_json py frames doc None = Return [])
  /\ (forall py frames,
        depth py path_without_chunk <= frames ->
        find_chunk_data_in_json py frames path_without_chunk None = Return [])
  /\ (forall p,
        endswith p target_suffix = true <-> exists pre, p = (pre ++ target_suffix)%string)
  /\ (forall py frames,
        depth py (entry "foo/REAFIR_STANDALONE.DLL" (JStr "X")) <= frames ->
        find_chunk_data_in_json py frames
          (entry "foo/REAFIR_STANDALONE.DLL" (JStr "X")) None = Return [])
  /\ (forall py frames,
        depth py (entry "foo/reafir_standalone.dll" (JStr "X")) <= frames ->
        find_chunk_data_in_json py frames
          (entry "foo/reafir_standalone.dll" (JStr "X")) None = Return [JStr "X"]).
Proof.
  split; [|split; [|split; [|split; [|split]]]].
  - intros items p found Hp Hend Hc.
    unfold visit_dict, own_chunk, chunk_of, dict_get. rewrite Hp. cbn [value_endswith].
    rewrite Hend. destruct Hc as [-> | ->]; split; reflexivity.
  - intros py frames doc Hstr Hd Hq.
    rewrite find_None, (find_returns _ _ _ _ Hstr Hd). cbn [app].
    pose proof (match_set_length doc) as Hl. rewrite Hq in Hl.
    destruct (match_set doc); [reflexivity|discriminate Hl].
  - intros py frames Hd. now rewrite (find_fits_None _ _ _ Hd).
  - intros p. apply endswith_iff.
  - intros py frames Hd. now rewrite (find_fits_None _ _ _ Hd).
  - intros py frames Hd. now rewrite (find_fits_None _ _ _ Hd).
Qed.

(** A null payload, and a document whose only mapping has no payload. *)
Lemma no_chunk_no_match_witness :
  visit_dict [("plugin_path", JStr "foo/reafir_standalone.dll"); ("chunk_data", JNull)]
             [JStr "before"] = Return [JStr "before"]
  /\ find_chunk_data_in_json cpython311 3 (JList [path_without_chunk; JStr "x"]) None = Return [].
Proof.
  split.
  - apply (proj1 no_chunk_no_match _ "foo/reafir_standalone.dll");
      [reflexivity|reflexivity|right; reflexivity].
  - apply (proj1 (proj2 no_chunk_no_match) cpython311 3);
      [reflexivity|apply Nat.leb_le; reflexivity|reflexivity].
Defined.

(** C9, as stated, fails: every [plugin_path] of [deep_lists] is a string,
    vacuously, and the search raises [RecursionError] instead of returning,
    whatever part of the default recursion limit is left to it. *)
Lemma deep_document_not_searched :
  plugin_paths_are_str deep_lists = true
  /\ (forall py frames,
        frames <= default_recursion_limit ->
        find_chunk_data_in_json py frames deep_lists None = Raise RecursionError []
        /\ ~ returns_when_paths_are_str py frames deep_lists).
Proof.
  assert (Hstr : plugin_paths_are_str deep_lists = true).
  { unfold deep_lists. now rewrite plugin_paths_are_str_nested. }
  split; [exact Hstr|].
  intros py frames Hle.
  assert (Hr : find_chunk_data_in_json py frames deep_lists None
               = Raise RecursionError []).
  { unfold deep_lists. apply nested_too_deep.
    unfold default_recursion_limit in Hle. lia. }
  split; [exact Hr|]. intros H. destruct (H Hstr) as [ms Hms].
  rewrite Hr in Hms. discriminate Hms.
Qed.

(** C9 (amended): the search returns a Match Set exactly when every
    [plugin_path] present in the document is a string and the nesting of the
    document fits the call stack the interpreter leaves to the search.  A
    document that fits and has a [plugin_path] that is not a string raises
    [AttributeError], as [{"plugin_path": 5}] does; a document that does not
    fit raises as well, [RecursionError] when every [plugin_path] is a
    string. *)
Theorem returns_iff_paths_are_str_and_depth_fits :
  (forall py frames doc,
      (exists ms, find_chunk_data_in_json py frames doc None = Return ms)
      <-> plugin_paths_are_str doc = true /\ depth py doc <= frames)
  /\ (forall py frames doc,
        plugin_paths_are_str doc = false ->
        depth py doc <= frames ->
        exists found,
          find_chunk_data_in_json py frames doc None = Raise AttributeError found)
  /\ (forall py frames doc,
        frames < depth py doc ->
        (exists e found,
            find_chunk_data_in_json py frames doc None = Raise e found)
        /\ (plugin_paths_are_str doc = true ->
            exists found,
              find_chunk_data_in_json py frames doc None
              = Raise RecursionError found))
  /\ plugin_paths_are_str (JDict [("plugin_path", JInt 5)]) = false
  /\ (forall py frames,
        depth py (JDict [("plugin_path", JInt 5)]) <= frames ->
        find_chunk_data_in_json py frames (JDict [("plugin_path", JInt 5)]) None
        = Raise AttributeError []).
Proof.
  split; [|split; [|split; [|split; [reflexivity|]]]].
  - intros py frames doc. apply find_returns_iff.
  - intros py frames doc Hstr Hd.
    destruct (find_raises py frames doc [] Hstr Hd) as [l Hl].
    exists l. now rewrite find_None, Hl.
  - intros py frames doc Hd. rewrite find_None.
    destruct (find_too_deep py frames doc [] Hd) as [e [l Hl]].
    split; [now exists e, l|].
    intros Hstr. exists l. rewrite Hl. f_equal.
    destruct (find_exn _ _ _ _ _ _ Hl) as [->|[_ H]]; [reflexivity|].
    rewrite Hstr in H. discriminate H.
  - intros py frames Hd. now rewrite (find_fits_None _ _ _ Hd).
Qed.

(** Both directions, on [small_scene] and on [two_entries_around_null]; and
    one entry on the last frame of the stack: where the call of [endswith]
    counts, it raises before anything is appended, and where no call of a
    built-in method counts, the entry is searched. *)
Lemma returns_iff_paths_are_str_and_depth_fits_witness :
  (exists ms, find_chunk_data_in_json cpython311 6 small_scene None = Return ms)
  /\ (exists found,
        find_chunk_data_in_json cpython311 3 two_entries_around_null None
        = Raise AttributeError found)
  /\ (exists found,
        find_chunk_data_in_json cpython311 5 small_scene None = Raise RecursionError found)
  /\ find_chunk_data_in_json cpython311 1 (JDict [("chunk_data", JStr "X")]) (Some [JNull])
     = Raise RecursionError [JNull]
  /\ find_chunk_data_in_json cpython311 1 (JDict [("plugin_path", JInt 5)]) (Some [JNull])
     = Raise AttributeError [JNull]
  /\ find_chunk_data_in_json counting 1 (JDict [("plugin_path", JInt 5)]) (Some [JNull])
     = Raise RecursionError [JNull]
  /\ find_chunk_data_in_json apart 1 (JDict []) (Some [JNull]) = Return [JNull].
Proof.
  split; [|split; [|split; [|repeat split]]].
  - apply (proj2 (proj1 returns_iff_paths_are_str_and_depth_fits cpython311 6 small_scene)).
    split; [reflexivity|]. apply Nat.leb_le. reflexivity.
  - apply (proj1 (proj2 returns_iff_paths_are_str_and_depth_fits)
             cpython311 3 two_entries_around_null); [reflexivity|].
    apply Nat.leb_le. reflexivity.
  - apply (proj2 (proj1 (proj2 (proj2 returns_iff_paths_are_str_and_depth_fits))
                    cpython311 5 small_scene ltac:(apply Nat.ltb_lt; reflexivity))).
    reflexivity.
Defined.

(** C10, as stated, fails in two ways.  The second mapping of
    [number_then_entry] has a [plugin_path] that ends with the suffix and the
    [chunk_data] ["X"], and the search appends nothing, because it raises on
    the number held by the first mapping's [plugin_path] before it reaches
    the second.  The mapping of [deep_entry] is the same, alone inside 1500
    sequences, and the search appends nothing either: it raises
    [RecursionError] on the way down. *)
Lemma chunk_not_appended :
  (In (entry "reafir_standalone.dll" (JStr "X")) (preorder number_then_entry)
   /\ (forall py frames,
         found_of (find_chunk_data_in_json py frames number_then_entry None) = [])
   /\ (forall py frames,
         depth py number_then_entry <= frames ->
         find_chunk_data_in_json py frames number_then_entry None
         = Raise AttributeError [])
   /\ (forall py frames, ~ appends_every_chunk py frames number_then_entry))
  /\ (In (entry "reafir_standalone.dll" (JStr "X")) (preorder deep_entry)
      /\ plugin_paths_are_str deep_entry = true
      /\ (forall py frames,
            frames <= default_recursion_limit ->
            find_chunk_data_in_json py frames deep_entry None = Raise RecursionError []
            /\ ~ appends_every_chunk py frames deep_entry)).
Proof.
  assert (Hin : In (entry "reafir_standalone.dll" (JStr "X")) (preorder deep_entry)).
  { unfold deep_entry. apply preorder_nested_mem. }
  split; [|split; [exact Hin|split]].
  2: { unfold deep_entry. now rewrite plugin_paths_are_str_nested. }
  2: { intros py frames Hle.
       assert (Hr : find_chunk_data_in_json py frames deep_entry None
                    = Raise RecursionError []).
       { unfold deep_entry. apply nested_too_deep.
         unfold default_recursion_limit in Hle. lia. }
       split; [exact Hr|]. intros H.
       specialize (H [("plugin_path", JStr "reafir_standalone.dll");
                      ("chunk_data", JStr "X")]
                     "reafir_standalone.dll" (JStr "X") Hin eq_refl eq_refl eq_refl
                     ltac:(discriminate)).
       rewrite Hr in H. exact H. }
  assert (He : forall py frames,
             found_of (find_chunk_data_in_json py frames number_then_entry None) = []).
  { intros py [|[|frames]]; try reflexivity.
    unfold number_then_entry. rewrite find_None, find_list. cbn [find_in_elems].
    rewrite find_dict. destruct (frames <? get_levels py)%nat; reflexivity. }
  split; [cbn; tauto|]. split; [exact He|]. split.
  - intros py frames Hd. now rewrite (find_fits_None _ _ _ Hd).
  - intros py frames H.
    specialize (H [("plugin_path", JStr "reafir_standalone.dll"); ("chunk_data", JStr "X")]
                  "reafir_standalone.dll" (JStr "X")).
    rewrite He in H. apply H; try reflexivity; [cbn; tauto|discriminate].
Qed.

(** C10 (amended): in a document on which the search returns (every
    [plugin_path] a string, nesting within the stack), every mapping, at any
    depth, whose [plugin_path] ends with the suffix has its [chunk_data] in
    the Match Set, whatever the value is as long as it is not null; the
    mapping a call is made on has the value appended as soon as it is tested,
    before its own values are visited and whatever happens there: the list
    then holds what it held, followed by that value unchanged.  An empty
    string, the number 0, [false], a mapping and a sequence are appended as
    they are, also from below other values. *)
Theorem any_non_null_chunk_is_appended :
  (forall py frames doc items p c,
      plugin_paths_are_str doc = true ->
      depth py doc <= frames ->
      In (JDict items) (preorder doc) ->
      lookup "plugin_path" items = Some (JStr p) ->
      endswith p target_suffix = true ->
      lookup "chunk_data" items = Some c ->
      c <> JNull ->
      exists ms,
        find_chunk_data_in_json py frames doc None = Return ms
        /\ In c ms
        /\ List.length ms = List.length (qualifying_mappings doc))
  /\ (forall py frames items p c found,
        lookup "plugin_path" items = Some (JStr p) ->
        endswith p target_suffix = true ->
        lookup "chunk_data" items = Some c ->
        c <> JNull ->
        get_levels py <= frames ->
        method_levels py <= frames ->
        visit_dict items found = Return (found ++ [c])
        /\ exists rest,
             found_of (find_chunk_data_in_json py (S frames) (JDict items) (Some found))
             = found ++ c :: rest)
  /\ (forall py frames c,
        In c [JStr ""; JInt 0; JBool false; JDict [("k", JInt 1)]; JList [JStr "a"; JNull]] ->
        depth py (entry "reafir_standalone.dll" c) <= frames ->
        find_chunk_data_in_json py frames (entry "reafir_standalone.dll" c) None
        = Return [c])
  /\ (forall py frames c,
        In c [JStr ""; JInt 0; JBool false; JDict [("k", JInt 1)]; JList [JStr "a"; JNull]] ->
        depth py (JDict [("filters", JList [JNull; entry "reafir_standalone.dll" c])])
        <= frames ->
        find_chunk_data_in_json py frames
          (JDict [("filters", JList [JNull; entry "reafir_standalone.dll" c])]) None
        = Return [c])
  /\ (forall py frames,
        depth py (entry "reafir_standalone.dll" JNull) <= frames ->
        find_chunk_data_in_json py frames (entry "reafir_standalone.dll" JNull) None
        = Return []).
Proof.
  assert (Hown : forall items p c,
             lookup "plugin_path" items = Some (JStr p) ->
             endswith p target_suffix = true ->
             lookup "chunk_data" items = Some c ->
             c <> JNull ->
             own_chunk (JDict items) = [c]).
  { intros items p c Hp Hend Hc Hnn. unfold own_chunk, chunk_of. rewrite Hp, Hend, Hc.
    destruct c; try reflexivity. now elim Hnn. }
  split; [|split; [|split; [|split]]].
  - intros py frames doc items p c Hstr Hd Hin Hp Hend Hc Hnn.
    exists (match_set doc). split; [|split].
    + now rewrite find_None, (find_returns _ _ _ _ Hstr Hd).
    + unfold match_set. apply in_flat_map. exists (JDict items). split; [exact Hin|].
      rewrite (Hown items p c Hp Hend Hc Hnn). now left.
    + apply match_set_length.
  - intros py frames items p c found Hp Hend Hc Hnn Hg Hb.
    assert (Hstr : plugin_path_is_str (JDict items) = true).
    { unfold plugin_path_is_str. now rewrite Hp. }
    pose proof (visit_dict_str items found Hstr) as Hv.
    rewrite (Hown items p c Hp Hend Hc Hnn) in Hv.
    split; [exact Hv|].
    rewrite find_dict, (proj2 (Nat.ltb_ge _ _) Hg), Hv, (proj2 (Nat.ltb_ge _ _) Hb).
    destruct (find_in_values_extends py frames items
                (fun k v _ found' => find_extends py v frames found') (found ++ [c]))
      as [l Hl].
    exists l. now rewrite Hl, <- app_assoc.
  - intros py frames c Hc Hd. rewrite (find_fits_None _ _ _ Hd).
    cbn [In] in Hc. decompose [or] Hc; subst; try reflexivity. contradiction.
  - intros py frames c Hc Hd. rewrite (find_fits_None _ _ _ Hd).
    cbn [In] in Hc. decompose [or] Hc; subst; try reflexivity. contradiction.
  - intros py frames Hd. now rewrite (find_fits_None _ _ _ Hd).
Qed.

(** The entry of [small_scene], four levels down; and a payload that is a
    mapping with a numeric [plugin_path]: it is appended before the search
    raises on it. *)
Lemma any_non_null_chunk_is_appended_witness :
  (exists ms,
      find_chunk_data_in_json cpython311 6 small_scene None = Return ms
      /\ In (JStr "Zm9v") ms
      /\ List.length ms = List.length (qualifying_mappings small_scene))
  /\ (exists rest,
        found_of (find_chunk_data_in_json cpython311 3
                    (entry "x/reafir_standalone.dll" (JDict [("plugin_path", JInt 1)]))
                    (Some [JStr "old"]))
        = [JStr "old"] ++ JDict [("plugin_path", JInt 1)] :: rest).
Proof.
  split.
  - apply (proj1 any_non_null_chunk_is_appended cpython311 6 small_scene
             [("plugin_path", JStr "C:/VST/reafir_standalone.dll");
              ("chunk_data", JStr "Zm9v")]
             "C:/VST/reafir_standalone.dll" (JStr "Zm9v"));
      [reflexivity|apply Nat.leb_le; reflexivity|cbn; tauto|reflexivity|reflexivity
      |reflexivity|discriminate].
  - apply (proj2 (proj1 (proj2 any_non_null_chunk_is_appended) cpython311 2
                    [("plugin_path", JStr "x/reafir_standalone.dll");
                     ("chunk_data", JDict [("plugin_path", JInt 1)])]
                    "x/reafir_standalone.dll" (JDict [("plugin_path", JInt 1)])
                    [JStr "old"] eq_refl eq_refl eq_refl
                    ltac:(discriminate) ltac:(apply Nat.leb_le; reflexivity)
                    ltac:(apply Nat.leb_le; reflexivity))).
Defined.

End TreeSearch.

(** * File Selector / Driver *)
Module Driver.
Import TreeSearch.

(** What [main] does to the outside world, in order: a log record, a prompt
    written by [input], a call of [pyperclip.copy].  A record whose message
    formats a value with [repr] keeps the value itself. *)
Inductive event : Type :=
| Log (lvl : level) (msg : string)
| LogRepr (lvl : level) (label : string) (v : list json)
| Prompt (msg : string)
| ClipboardCopy (v : json).

(** The values handed to [pyperclip.copy] by a run, in order. *)
Fixpoint clipboard_writes (evs : list event) : list json :=
  match evs with
  | [] => []
  | ClipboardCopy v :: rest => v :: clipboard_writes rest
  | _ :: rest => clipboard_writes rest
  end.

(** The warnings of a run, in order. *)
Fixpoint warnings (evs : list event) : list string :=
  match evs with
  | [] => []
  | Log WARNING msg :: rest => msg :: warnings rest
  | _ :: rest => warnings rest
  end.

(** Lines 130-140 of [main]: what is done with the list the search returned. *)
Definition copy_or_warn (chunk_datas : list json) : list event :=
  [LogRepr DEBUG "chunk_datas=" chunk_datas]
  ++ (match chunk_datas with
      | [] => [Log WARNING "ReaFIR not found"]
      | _ => []
      end)
  ++ (if (List.length chunk_datas =? 1)%nat then
        [ClipboardCopy (hd JNull chunk_datas);
         Log INFO "chunk_data copied to clipboard"]
      else if (List.length chunk_datas =? 0)%nat then
        [Log WARNING "No chunk_data found"]
      else
        [Log WARNING "Multiple chunk_data entries found; not copying"]).

(** Lines 129-140: the search on the parsed file, then the policy; an
    exception of the search leaves [main] before anything is copied.  [py]
    and [frames] are the interpreter and the nested calls it still allows
    where [main] calls the search.  [ClipboardCopy] records that
    [pyperclip.copy] is called, and with what; the record that follows it is
    that of a run in which the library returns. *)
Definition search_and_copy (py : interpreter) (frames : nat) (data : json)
  : list event * option exn :=
  match find_chunk_data_in_json py frames data None with
  | Return chunk_datas => (copy_or_warn chunk_datas, None)
  | Raise e _ => ([], Some e)
  end.

(** *** [int(str)] *)

(** The characters [int] skips around the number in ASCII text: tab, line
    feed, vertical tab, form feed, carriage return and space. *)
Definition is_space (c : ascii) : bool :=
  let n := nat_of_ascii c in
  ((9 <=? n) && (n <=? 13) || (n =? 32))%nat.

Definition digit_value (c : ascii) : option Z :=
  let n := nat_of_ascii c in
  if ((48 <=? n) && (n <=? 57))%nat then Some (Z.of_nat (n - 48)) else None.

Fixpoint skip_spaces (s : string) : string :=
  match s with
  | String c rest => if is_space c then skip_spaces rest else s
  | EmptyString => s
  end.

(** The digit scan of [int]: digits, with single underscores between them.
    [prev_underscore] tells whether the character before was an underscore,
    [digits] counts the digits read, [acc] is their value.  The result is the
    value, the count and what follows the number; [None] is a misplaced
    underscore. *)
Fixpoint scan_digits (s : string) (prev_underscore : bool) (digits : nat) (acc : Z)
  : option (Z * nat * string) :=
  match s with
  | String c rest =>
      if Ascii.eqb c "_" then
        if prev_underscore then None
        else scan_digits rest true digits acc
      else
        match digit_value c with
        | Some d => scan_digits rest false (S digits) (10 * acc + d)%Z
        | None => if prev_underscore then None else Some (acc, digits, s)
        end
  | EmptyString => if prev_underscore then None else Some (acc, digits, s)
  end.

(** [sys.int_info.default_max_str_digits]. *)
Definition max_str_digits : nat := 4300.

(** [int(s)] for a line of ASCII text: [None] is [ValueError]. *)
Definition ascii_int (s : string) : option Z :=
  let s := skip_spaces s in
  let '(negative, s) :=
    match s with
    | String "-" rest => (true, rest)
    | String "+" rest => (false, rest)
    | _ => (false, s)
    end in
  match s with
  | String "_" _ => None
  | _ =>
      match scan_digits s false 0 0 with
      | Some (value, digits, rest) =>
          if (digits =? 0)%nat then None
          else if (max_str_digits <? digits)%nat then None
          else
            match skip_spaces rest with
            | EmptyString => Some (if negative then (- value)%Z else value)
            | _ => None
            end
      | None => None
      end
  end.

(** Whether a line, taken as its UTF-8 text, holds ASCII characters only. *)
Fixpoint is_ascii (s : string) : bool :=
  match s with
  | String c rest => (nat_of_ascii c <? 128)%nat && is_ascii rest
  | EmptyString => true
  end.

(** A stand-in for [int] on the text of other scripts, for the examples: it
    reads the full-width digit two, U+FF12, whose UTF-8 text is the bytes
    EF BC 92, and nothing else. *)
Definition fullwidth_two : string :=
  String (ascii_of_nat 239) (String (ascii_of_nat 188) (String (ascii_of_nat 146) EmptyString)).

Definition int_of_fullwidth_two (s : string) : option Z :=
  if String.eqb s fullwidth_two then Some 2%Z else None.

Section Console.
(** [int(s)] for a line that holds characters outside ASCII, where [int]
    also reads the decimal digits and skips the white space of the other
    scripts of Unicode, as the interpreter's tables list them. *)
Variable unicode_int : string -> option Z.

(** [int(s)] for a line read from the console: [None] is [ValueError]. *)
Definition py_int (s : string) : option Z :=
  if is_ascii s then ascii_int s else unicode_int s.

(** *** The selection loop *)

(** How the selection ends: a file was chosen, with the lines of the console
    not yet read, or an exception left [main]. *)
Inductive selection : Type :=
| Selected (selected_file : string) (stdin : list string)
| Failed (e : exn).

Definition prompt_text : string := "Please select a JSON file by number: ".

(** One turn of the [while True] loop on the line read by [input]: the file
    on [break], or the error that is logged before the next turn. *)
Definition select_turn (json_files : list string) (line : string) : string + string :=
  match py_int line with
  | Some selection =>
      if ((1 <=? selection) && (selection <=? Z.of_nat (List.length json_files)))%Z then
        inl (nth (Z.to_nat (selection - 1)) json_files "")
      else
        inr "Invalid selection. Please try again."
  | None => inr "Invalid input. Please try again."
  end.

(** The [while True] loop, lines 112-121.  The console is the list of the
    lines still to be read; [input] on an exhausted console raises [EOFError],
    which the loop does not catch. *)
Fixpoint select_loop (json_files : list string) (stdin : list string) : list event * selection :=
  match stdin with
  | [] => ([Prompt prompt_text], Failed EOFError)
  | line :: stdin =>
      match select_turn json_files line with
      | inl selected_file => ([Prompt prompt_text], Selected selected_file stdin)
      | inr msg =>
          let '(evs, r) := select_loop json_files stdin in
          (Prompt prompt_text :: Log ERROR msg :: evs, r)
      end
  end.

Definition auto_selected_text (selected_file : string) : string :=
  "Automatically selected the only JSON file: " ++ dquote ++ selected_file ++ dquote.

(** Lines 108-121 of [main]. *)
Definition select_file (json_files : list string) (stdin : list string) : list event * selection :=
  if (List.length json_files =? 1)%nat then
    let selected_file := hd "" json_files in
    ([Log DEBUG (auto_selected_text selected_file)], Selected selected_file stdin)
  else select_loop json_files stdin.

(** A line the loop rejects. *)
Definition rejected (json_files : list string) (line : string) : Prop :=
  exists msg, select_turn json_files line = inr msg.

(** The errors logged by a run, in order. *)
Fixpoint errors (evs : list event) : list string :=
  match evs with
  | [] => []
  | Log ERROR msg :: rest => msg :: errors rest
  | _ :: rest => errors rest
  end.

(** The prompts written by a run. *)
Fixpoint prompts (evs : list event) : nat :=
  match evs with
  | [] => 0
  | Prompt _ :: rest => S (prompts rest)
  | _ :: rest => prompts rest
  end.

(** The three candidates of the specification's example. *)
Definition three_files : list string := ["a.json"; "b.json"; "c.json"].

(** *** The copy-or-warn policy *)

Lemma copy_or_warn_single (x : json) :
  copy_or_warn [x]
  = [LogRepr DEBUG "chunk_datas=" [x]; ClipboardCopy x;
     Log INFO "chunk_data copied to clipboard"].
Proof. reflexivity. Qed.

Lemma copy_or_warn_many (x y : json) (l : list json) :
  copy_or_warn (x :: y :: l)
  = [LogRepr DEBUG "chunk_datas=" (x :: y :: l);
     Log WARNING "Multiple chunk_data entries found; not copying"].
Proof. reflexivity. Qed.

(** C4: the driver calls the clipboard exactly when the Match Set returned by
    the search has one element, and then with that element and nothing else;
    on an empty Match Set and on one with two or more elements it only warns. *)
Theorem clipboard_written_iff_single_match :
  (forall chunk_datas,
      clipboard_writes (copy_or_warn chunk_datas) <> []
      <-> List.length chunk_datas = 1%nat)
  /\ (forall x, clipboard_writes (copy_or_warn [x]) = [x])
  /\ (clipboard_writes (copy_or_warn []) = []
      /\ warnings (copy_or_warn []) = ["ReaFIR not found"; "No chunk_data found"])
  /\ (forall x y l,
        clipboard_writes (copy_or_warn (x :: y :: l)) = []
        /\ warnings (copy_or_warn (x :: y :: l))
           = ["Multiple chunk_data entries found; not copying"])
  /\ (forall py frames data,
        clipboard_writes (fst (search_and_copy py frames data))
        = match find_chunk_data_in_json py frames data None with
          | Return [x] => [x]
          | _ => []
          end).
Proof.
  split; [|split; [|split; [|split]]].
  - intros [|x [|y l]]; cbn; split; intros H; try discriminate H; try reflexivity;
      now elim H.
  - reflexivity.
  - split; reflexivity.
  - split; reflexivity.
  - intros py frames data. unfold search_and_copy.
    destruct (find_chunk_data_in_json py frames data None) as [[|x [|y l]]|e l];
      reflexivity.
Qed.

(** *** The selection loop *)

Lemma select_turn_rejected (json_files : list string) (line : string) :
  rejected json_files line
  <-> py_int line = None
      \/ exists k, py_int line = Some k
                   /\ (k < 1 \/ Z.of_nat (List.length json_files) < k)%Z.
Proof.
  unfold rejected, select_turn. destruct (py_int line) as [k|].
  - destruct (Z.leb_spec 1 k) as [H1|H1];
      destruct (Z.leb_spec k (Z.of_nat (List.length json_files))) as [H2|H2];
      cbn [andb]; split; intros H.
    + destruct H as [msg H]. discriminate H.
    + destruct H as [H|[k' [[= <-] H]]]; [discriminate H|lia].
    + right. exists k. split; [reflexivity|lia].
    + now eexists.
    + right. exists k. split; [reflexivity|lia].
    + now eexists.
    + right. exists k. split; [reflexivity|lia].
    + now eexists.
  - split; intros H; [now left|now eexists].
Qed.

Lemma select_turn_accepted (json_files : list string) (line : string) (k : Z) :
  py_int line = Some k ->
  (1 <= k <= Z.of_nat (List.length json_files))%Z ->
  select_turn json_files line = inl (nth (Z.to_nat (k - 1)) json_files "").
Proof.
  intros Hk [H1 H2]. unfold select_turn. rewrite Hk.
  apply Z.leb_le in H1, H2. now rewrite H1, H2.
Qed.

(** Rejected lines are logged one by one, and the loop goes on with the rest
    of the console. *)
Lemma select_loop_skips (json_files bad stdin : list string) :
  Forall (rejected json_files) bad ->
  exists evs,
    select_loop json_files (bad ++ stdin)
    = (evs ++ fst (select_loop json_files stdin), snd (select_loop json_files stdin))
    /\ List.length (errors evs) = List.length bad
    /\ prompts evs = List.length bad
    /\ clipboard_writes evs = [].
Proof.
  induction 1 as [|line bad [msg Hmsg] _ [evs [IH [He [Hp Hc]]]]].
  - exists []. cbn. now destruct (select_loop json_files stdin).
  - exists (Prompt prompt_text :: Log ERROR msg :: evs).
    cbn [app select_loop]. rewrite Hmsg, IH. cbn.
    now rewrite He, Hp, Hc.
Qed.

Lemma errors_app (evs evs' : list event) :
  errors (evs ++ evs') = errors evs ++ errors evs'.
Proof.
  induction evs as [|[[]| | |] evs IH]; cbn; now rewrite ?IH.
Qed.

Lemma prompts_app (evs evs' : list event) :
  prompts (evs ++ evs') = (prompts evs + prompts evs')%nat.
Proof.
  induction evs as [|[[]| | |] evs IH]; cbn; now rewrite ?IH.
Qed.

(** When the console ends before an accepted line, [input] raises [EOFError]
    after every line has been rejected and logged. *)
Lemma select_loop_console_ends (json_files bad : list string) :
  Forall (rejected json_files) bad ->
  exists evs,
    select_loop json_files bad = (evs, Failed EOFError)
    /\ List.length (errors evs) = List.length bad.
Proof.
  intros H. destruct (select_loop_skips json_files bad [] H) as [evs [E [He _]]].
  rewrite app_nil_r in E. cbn in E.
  exists (evs ++ [Prompt prompt_text]). split; [exact E|].
  rewrite errors_app. cbn. now rewrite app_nil_r.
Qed.

(** C8: a sole candidate is selected without reading the console; otherwise
    every rejected line (not an integer for [int], or an integer outside
    1..number of candidates) is answered by an error record and a new prompt,
    the outcome being that of the loop on the lines that follow, and the first
    accepted line selects the candidate at that 1-based position; with three
    candidates, "2" selects the second one, "abc" and "5" are rejected and the
    loop goes on.  This holds of every line, whatever its characters, and
    however [int] reads the text that is not ASCII. *)
Theorem selection_prompts_until_valid :
  (forall f stdin,
      select_file [f] stdin = ([Log DEBUG (auto_selected_text f)], Selected f stdin))
  /\ (forall json_files bad line stdin k,
        List.length json_files <> 1%nat ->
        Forall (rejected json_files) bad ->
        py_int line = Some k ->
        (1 <= k <= Z.of_nat (List.length json_files))%Z ->
        exists evs,
          select_file json_files (bad ++ line :: stdin)
          = (evs, Selected (nth (Z.to_nat (k - 1)) json_files "") stdin)
          /\ List.length (errors evs) = List.length bad
          /\ prompts evs = S (List.length bad))
  /\ (forall json_files line stdin,
        List.length json_files <> 1%nat ->
        rejected json_files line ->
        exists msg,
          select_file json_files (line :: stdin)
          = (Prompt prompt_text :: Log ERROR msg :: fst (select_file json_files stdin),
             snd (select_file json_files stdin)))
  /\ (forall json_files line,
        rejected json_files line
        <-> py_int line = None
            \/ exists k, py_int line = Some k
                         /\ (k < 1 \/ Z.of_nat (List.length json_files) < k)%Z)
  /\ select_file three_files ["2"] = ([Prompt prompt_text], Selected "b.json" [])
  /\ select_file three_files ["abc"; "5"; "2"; "1"]
     = ([Prompt prompt_text; Log ERROR "Invalid input. Please try again.";
         Prompt prompt_text; Log ERROR "Invalid selection. Please try again.";
         Prompt prompt_text],
        Selected "b.json" ["1"]).
Proof.
  split; [|split; [|split; [|split; [|split]]]]; try reflexivity.
  - intros json_files bad line stdin k Hlen Hbad Hk Hrange.
    unfold select_file. rewrite (proj2 (Nat.eqb_neq _ _) Hlen).
    destruct (select_loop_skips json_files bad (line :: stdin) Hbad)
      as [evs [E [He [Hp _]]]].
    exists (evs ++ [Prompt prompt_text]). rewrite E.
    cbn [select_loop fst snd]. rewrite (select_turn_accepted _ _ _ Hk Hrange).
    split; [reflexivity|].
    rewrite errors_app, prompts_app. cbn. rewrite app_nil_r. lia.
  - intros json_files line stdin Hlen [msg Hmsg].
    unfold select_file. rewrite (proj2 (Nat.eqb_neq _ _) Hlen).
    exists msg. cbn [select_loop]. rewrite Hmsg.
    now destruct (select_loop json_files stdin).
  - apply select_turn_rejected.
Qed.

End Console.

(** Four rejected lines, then " 3 ", with three candidates; and a full-width
    digit two, when [int] reads it as 2. *)
Lemma selection_prompts_until_valid_witness :
  (exists evs,
      select_file int_of_fullwidth_two three_files
        (["x1"; "0"; "4"; "2 3"] ++ " 3 " :: ["rest"])
      = (evs, Selected "c.json" ["rest"])
      /\ List.length (errors evs) = 4%nat
      /\ prompts evs = 5%nat)
  /\ (exists evs,
        select_file int_of_fullwidth_two three_files (["abc"] ++ fullwidth_two :: [])
        = (evs, Selected "b.json" [])
        /\ List.length (errors evs) = 1%nat
        /\ prompts evs = 2%nat)
  /\ rejected int_of_fullwidth_two three_files "abc"
  /\ rejected int_of_fullwidth_two three_files "5".
Proof.
  split; [|split; [|split]].
  - apply (proj1 (proj2 (selection_prompts_until_valid int_of_fullwidth_two))
             three_files ["x1"; "0"; "4"; "2 3"] " 3 " ["rest"] 3%Z).
    + cbn. discriminate.
    + repeat constructor; now eexists.
    + reflexivity.
    + cbn. lia.
  - apply (proj1 (proj2 (selection_prompts_until_valid int_of_fullwidth_two))
             three_files ["abc"] fullwidth_two [] 2%Z).
    + cbn. discriminate.
    + repeat constructor; now eexists.
    + reflexivity.
    + cbn. lia.
  - apply (proj2 (proj1 (proj2 (proj2 (proj2
                    (selection_prompts_until_valid int_of_fullwidth_two))))
                    three_files "abc")).
    left. reflexivity.
  - apply (proj2 (proj1 (proj2 (proj2 (proj2
                    (selection_prompts_until_valid int_of_fullwidth_two))))
                    three_files "5")).
    right. exists 5%Z. split; [reflexivity|]. cbn. lia.
Defined.

End Driver.

(** * Duration Formatter *)
Module Duration.

(** What a call gives: a value, or an exception. *)
Inductive outcome (A : Type) : Type :=
| Ok (a : A)
| Exc (e : exn).
Arguments Ok {A} a.
Arguments Exc {A} e.

(** *** Python's [float] and [int] *)

(** A [float] is an IEEE 754 binary64 value. *)
Definition prec : Z := 53.
Definition emax : Z := 1024.

(** [float(n)] for an [int] in the range of binary64, rounded to nearest
    even. *)
Definition float_of_Z (n : Z) : spec_float := binary_normalize prec emax n 0 false.

(** [x * y] on [float]. *)
Definition float_mul (x y : spec_float) : spec_float := SFmul prec emax x y.

(** [0.0 <= x]. *)
Definition float_nonneg (x : spec_float) : bool := SFleb (S754_zero false) x.

Definition is_finite (x : spec_float) : bool :=
  match x with
  | S754_zero _ | S754_finite _ _ _ => true
  | S754_infinity _ | S754_nan => false
  end.

(** [int(x)] on a [float]: truncation toward zero; an infinity raises
    [OverflowError] and a NaN raises [ValueError]. *)
Definition int_of_float (x : spec_float) : outcome Z :=
  match x with
  | S754_zero _ => Ok 0%Z
  | S754_infinity _ => Exc OverflowError
  | S754_nan => Exc ValueError
  | S754_finite s m e =>
      let magnitude := Z.shiftl (Zpos m) e in
      Ok (if s then (- magnitude)%Z else magnitude)
  end.

(** [str(n)] on an [int]. *)
Definition str_of_Z (n : Z) : string := NilZero.string_of_int (Z.to_int n).

(** *** [format_duration_long] *)

(** The table [units]. *)
Definition units : list (string * Z) :=
  [("y", 365 * 24 * 60 * 60 * 1000000000);
   ("mo", 30 * 24 * 60 * 60 * 1000000000);
   ("d", 24 * 60 * 60 * 1000000000);
   ("h", 60 * 60 * 1000000000);
   ("m", 60 * 1000000000);
   ("s", 1000000000);
   ("ms", 1000000);
   ("us", 1000);
   ("ns", 1)]%Z.

(** The [for] loop of lines 162-167, with its [break]. *)
Fixpoint collect_parts (units : list (string * Z)) (ns : Z) (parts : list string) : list string :=
  match units with
  | [] => parts
  | (name, factor) :: rest =>
      let value := (ns / factor)%Z in
      let ns := (ns mod factor)%Z in
      let parts := if (value =? 0)%Z then parts else parts ++ [(str_of_Z value ++ name)%string] in
      if (List.length parts =? 2)%nat then parts else collect_parts rest ns parts
  end.

(** Line 149: [int(duration_seconds * 1_000_000_000)]. *)
Definition nanoseconds (duration_seconds : spec_float) : outcome Z :=
  int_of_float (float_mul duration_seconds (float_of_Z 1000000000)).

(** Lines 150-170, from the nanosecond count on. *)
Definition format_ns (ns : Z) : string :=
  match collect_parts units ns [] with
  | [] => "0s"
  | parts => String.concat "" parts
  end.

Definition format_duration_long (duration_seconds : spec_float) : outcome string :=
  match nanoseconds duration_seconds with
  | Ok ns => Ok (format_ns ns)
  | Exc e => Exc e
  end.

(** *** The words of the specification *)

(** The value of every unit of the table, largest unit first: what is left
    after a unit goes to the next one. *)
Fixpoint unit_values (units : list (string * Z)) (ns : Z) : list (string * Z) :=
  match units with
  | [] => []
  | (name, factor) :: rest => (name, (ns / factor)%Z) :: unit_values rest (ns mod factor)%Z
  end.

Definition nonzero (part : string * Z) : bool := negb (snd part =? 0)%Z.

(** The two largest units whose value is not zero (fewer when there are
    fewer). *)
Definition two_largest_nonzero (ns : Z) : list (string * Z) :=
  firstn 2 (filter nonzero (unit_values units ns)).

Definition part_text (part : string * Z) : string :=
  (str_of_Z (snd part) ++ fst part)%string.

(** The rendering the specification describes. *)
Definition rendering (ns : Z) : string :=
  match two_largest_nonzero ns with
  | [] => "0s"
  | parts => String.concat "" (map part_text parts)
  end.

(** What the values of the units add up to. *)
Fixpoint total (units parts : list (string * Z)) : Z :=
  match units, parts with
  | (_, factor) :: units, (_, value) :: parts => (value * factor + total units parts)%Z
  | _, _ => 0%Z
  end.

(** [2.0 ** 1000], a finite binary64 value. *)
Definition two_pow_1000 : spec_float := S754_finite false (2 ^ 52) 948.

(** What the units do not cover. *)
Fixpoint remainder (us : list (string * Z)) (ns : Z) : Z :=
  match us with
  | [] => ns
  | (_, factor) :: rest => remainder rest (ns mod factor)%Z
  end.

(** The formatter renders the two largest non-zero units of the duration. *)
Definition renders_two_largest (duration_seconds : spec_float) : Prop :=
  exists ns,
    nanoseconds duration_seconds = Ok ns
    /\ format_duration_long duration_seconds = Ok (rendering ns).

(** *** The loop against the specification's words *)

Lemma collect_parts_firstn (us : list (string * Z)) :
  forall ns parts,
    (List.length parts < 2)%nat ->
    collect_parts us ns parts
    = parts ++ map part_text
                 (firstn (2 - List.length parts) (filter nonzero (unit_values us ns))).
Proof.
  induction us as [|[name factor] rest IH]; intros ns parts Hlen.
  - cbn [collect_parts unit_values filter]. rewrite firstn_nil. cbn [map].
    now rewrite app_nil_r.
  - cbn [collect_parts unit_values filter]. unfold nonzero at 1. cbn [snd].
    destruct (Z.eqb_spec (ns / factor) 0) as [Hz|Hz]; cbn [negb].
    + rewrite (proj2 (Nat.eqb_neq _ 2)) by lia. now apply IH.
    + rewrite length_app. cbn [List.length].
      destruct parts as [|p [|q parts]]; cbn [List.length] in *; try lia.
      * cbn [Nat.add Nat.eqb app]. rewrite IH by (cbn; lia). reflexivity.
      * reflexivity.
Qed.

Lemma format_ns_rendering (ns : Z) : format_ns ns = rendering ns.
Proof.
  unfold format_ns, rendering, two_largest_nonzero.
  rewrite collect_parts_firstn by (cbn; lia). cbn [List.length Nat.sub app].
  now destruct (firstn 2 (filter nonzero (unit_values units ns))).
Qed.

Lemma total_remainder (us : list (string * Z)) :
  Forall (fun u => snd u <> 0%Z) us ->
  forall ns, (total us (unit_values us ns) + remainder us ns)%Z = ns.
Proof.
  induction 1 as [|[name factor] rest Hf _ IH]; intros ns; [reflexivity|].
  cbn [total unit_values remainder]. cbn [snd] in Hf.
  rewrite <- Z.add_assoc, IH. rewrite (Z.div_mod ns factor Hf) at 3. lia.
Qed.

(** The unit values are the digits of the nanosecond count in the mixed
    radix of the table. *)
Lemma unit_values_total (ns : Z) : total units (unit_values units ns) = ns.
Proof.
  assert (Hu : Forall (fun u => snd u <> 0%Z) units)
    by (repeat constructor; discriminate).
  pose proof (total_remainder units Hu ns) as H.
  replace (remainder units ns) with 0%Z in H; [lia|].
  unfold units. cbn [remainder]. now rewrite Z.mod_1_r.
Qed.

Lemma unit_values_nonneg (us : list (string * Z)) :
  Forall (fun u => 0 < snd u)%Z us ->
  forall ns, (0 <= ns)%Z -> Forall (fun p => 0 <= snd p)%Z (unit_values us ns).
Proof.
  induction 1 as [|[name factor] rest Hf _ IH]; intros ns Hns; [constructor|].
  cbn [unit_values]. cbn [snd] in Hf. constructor.
  - cbn [snd]. now apply Z.div_pos.
  - apply IH. now apply Z.mod_pos_bound.
Qed.

Lemma all_zero_no_part (parts : list (string * Z)) :
  Forall (fun p => snd p = 0%Z) parts -> filter nonzero parts = [].
Proof.
  induction 1 as [|p parts Hp _ IH]; [reflexivity|].
  cbn [filter]. unfold nonzero at 1. now rewrite Hp, IH.
Qed.

(** *** The conversion to nanoseconds *)

Lemma billion_float : float_of_Z 1000000000 = S754_finite false 8388608000000000 (-23).
Proof. vm_compute. reflexivity. Qed.

Lemma int_of_float_nonneg (x : spec_float) :
  match x with S754_finite true _ _ => False | _ => True end ->
  is_finite x = true ->
  exists ns, (0 <= ns)%Z /\ int_of_float x = Ok ns.
Proof.
  destruct x as [s|s| |[] m e]; intros Hs Hf; try discriminate Hf; try contradiction.
  - exists 0%Z. split; [lia|reflexivity].
  - exists (Z.shiftl (Zpos m) e). split; [|reflexivity].
    apply Z.shiftl_nonneg. lia.
Qed.

Lemma float_mul_nonneg (x : spec_float) :
  float_nonneg x = true ->
  match float_mul x (float_of_Z 1000000000) with
  | S754_finite true _ _ => False
  | _ => True
  end.
Proof.
  rewrite billion_float. unfold float_nonneg, float_mul.
  destruct x as [s|s| |s m e]; intros H.
  - exact I.
  - exact I.
  - exact I.
  - destruct s; [discriminate H|].
    unfold SFmul, binary_round_aux. cbn [xorb].
    destruct (shr_fexp prec emax _ _ _) as [mrs1 e1].
    destruct (shr_fexp prec emax _ _ _) as [mrs2 e2].
    destruct (shr_m mrs2); [exact I| |exact I].
    now destruct (Z.leb e2 (emax - prec)).
Qed.

Lemma nanoseconds_nonneg (x : spec_float) :
  float_nonneg x = true ->
  is_finite (float_mul x (float_of_Z 1000000000)) = true ->
  exists ns, (0 <= ns)%Z /\ nanoseconds x = Ok ns.
Proof.
  intros Hx Hf. apply int_of_float_nonneg; [now apply float_mul_nonneg|exact Hf].
Qed.

(** The docstring announces that nanoseconds are not shown from one second
    on; the loop has no such rule. *)
Lemma nanoseconds_shown_after_a_second : format_ns 1000000001 = "1s1ns".
Proof. vm_compute. reflexivity. Qed.

(** *** The claim about the formatter *)

(** C5, as stated, fails: [2.0 ** 1000] seconds is a non-negative finite
    duration, its product with 1e9 overflows to infinity, and [int] raises
    [OverflowError] instead of a string being rendered. *)
Lemma large_duration_overflows :
  valid_binary prec emax two_pow_1000 = true
  /\ float_nonneg two_pow_1000 = true
  /\ float_mul two_pow_1000 (float_of_Z 1000000000) = S754_infinity false
  /\ format_duration_long two_pow_1000 = Exc OverflowError
  /\ ~ renders_two_largest two_pow_1000.
Proof.
  split; [vm_compute; reflexivity|].
  split; [vm_compute; reflexivity|].
  split; [vm_compute; reflexivity|].
  split; [vm_compute; reflexivity|].
  intros [ns [H _]]. vm_compute in H. discriminate H.
Qed.

(** C5 (amended): for every non-negative duration in fractional seconds whose
    product with 1e9 is finite in binary64, the formatter renders the two
    largest non-zero units of the truncated nanosecond count, taken from
    years, months of 30 days, days, hours, minutes, seconds, milliseconds,
    microseconds, nanoseconds, concatenated without separator; the loop of the
    code, which stops after two parts, agrees with that rendering on every
    count; the unit values add up to the count; if every unit value is zero
    the text is "0s"; 0, 90 and 3661 seconds give "0s", "1m30s" and "1h1m". *)
Theorem two_largest_units_rendered :
  (forall duration_seconds,
      float_nonneg duration_seconds = true ->
      is_finite (float_mul duration_seconds (float_of_Z 1000000000)) = true ->
      exists ns,
        (0 <= ns)%Z
        /\ nanoseconds duration_seconds = Ok ns
        /\ format_duration_long duration_seconds = Ok (rendering ns))
  /\ (forall ns,
        format_ns ns = rendering ns
        /\ total units (unit_values units ns) = ns)
  /\ (forall ns,
        Forall (fun p => snd p = 0%Z) (unit_values units ns) -> format_ns ns = "0s")
  /\ format_duration_long (float_of_Z 0) = Ok "0s"
  /\ format_duration_long (float_of_Z 90) = Ok "1m30s"
  /\ format_duration_long (float_of_Z 3661) = Ok "1h1m".
Proof.
  split; [|split; [|split; [|split; [|split]; vm_compute; reflexivity]]].
  - intros x Hx Hf. destruct (nanoseconds_nonneg x Hx Hf) as [ns [Hns E]].
    exists ns. split; [exact Hns|]. split; [exact E|].
    unfold format_duration_long. now rewrite E, format_ns_rendering.
  - intros ns. split; [apply format_ns_rendering|apply unit_values_total].
  - intros ns H. rewrite format_ns_rendering. unfold rendering, two_largest_nonzero.
    now rewrite (all_zero_no_part _ H).
Qed.

(** The general part at 90 seconds. *)
Lemma two_largest_units_rendered_witness :
  exists ns,
    (0 <= ns)%Z
    /\ nanoseconds (float_of_Z 90) = Ok ns
    /\ format_duration_long (float_of_Z 90) = Ok (rendering ns).
Proof.
  apply (proj1 two_largest_units_rendered (float_of_Z 90)); vm_compute; reflexivity.
Defined.

End Duration.

(** * Log Retention Enforcer *)
Module Retention.

(** An entry of the log directory, as the function sees it: its name, whether
    it is a regular file, [stat().st_mtime] (in clock ticks), [stat().st_size],
    and whether [stat] followed by [unlink] succeeds on it. *)
Record entry : Type := {
  name : string;
  is_file : bool;
  st_mtime : Z;
  st_size : N;
  removable : bool
}.

(** [pat in s]. *)
Fixpoint contains (pat s : string) : bool :=
  String.prefix pat s
  || match s with
     | EmptyString => false
     | String _ rest => contains pat rest
     end.

(** [log_dir.glob("*.log*")] keeps the names that hold [.log] somewhere
    (compared case-sensitively, as on a POSIX file system); the comprehension
    keeps the regular files among them. *)
Definition is_log_file (f : entry) : bool :=
  contains ".log" (name f) && is_file f.

(** [sorted(..., key=lambda f: f.stat().st_mtime)]: a stable sort, here by
    insertion from the right. *)
Fixpoint insert_by_mtime (f : entry) (l : list entry) : list entry :=
  match l with
  | [] => [f]
  | g :: rest =>
      if (st_mtime f <=? st_mtime g)%Z then f :: g :: rest
      else g :: insert_by_mtime f rest
  end.

Fixpoint sorted_by_mtime (l : list entry) : list entry :=
  match l with
  | [] => []
  | f :: rest => insert_by_mtime f (sorted_by_mtime rest)
  end.

(** [sum(f.stat().st_size for f in files)]. *)
Fixpoint sum_sizes (l : list entry) : Z :=
  match l with
  | [] => 0%Z
  | f :: rest => (Z.of_N (st_size f) + sum_sizes rest)%Z
  end.

(** [f.unlink()]: the directory without the entry of that name. *)
Definition unlink (f : entry) (dir : list entry) : list entry :=
  filter (fun g => negb (String.eqb (name g) (name f))) dir.

(** The variables of the [while] loop, the directory and the log records. *)
Record state : Type := {
  files : list entry;
  total_size : Z;
  log_dir : list entry;
  log : list (level * string)
}.

(** Line 188: [total_size > max_bytes and files]. *)
Definition loop_condition (max_bytes : Z) (st : state) : bool :=
  (max_bytes <? total_size st)%Z
  && match files st with [] => false | _ => true end.

(** Lines 189-197: one turn of the loop. *)
Definition loop_body (st : state) : state :=
  match files st with
  | [] => st
  | oldest :: rest =>
      if removable oldest then
        {| files := rest;
           total_size := total_size st - Z.of_N (st_size oldest);
           log_dir := unlink oldest (log_dir st);
           log := log st ++ [(DEBUG, "Deleted " ++ dquote ++ name oldest ++ dquote)%string] |}
      else
        {| files := rest;
           total_size := total_size st;
           log_dir := log_dir st;
           log := log st
                  ++ [(ERROR, "Failed to delete " ++ dquote ++ name oldest ++ dquote)%string] |}
  end.

(** The [while] loop, for at most [fuel] turns. *)
Fixpoint while_loop (fuel : nat) (max_bytes : Z) (st : state) : state :=
  match fuel with
  | O => st
  | S fuel =>
      if loop_condition max_bytes st then while_loop fuel max_bytes (loop_body st)
      else st
  end.

(** Lines 181-186: the state in which the loop is entered. *)
Definition initial_state (dir : list entry) : state :=
  let files := sorted_by_mtime (filter is_log_file dir) in
  {| files := files; total_size := sum_sizes files; log_dir := dir; log := [] |}.

(** [enforce_max_folder_size(log_dir, max_bytes)]: the state in which the
    function returns.  Every turn pops one file, so the loop has ended within
    as many turns as there are files. *)
Definition enforce_max_folder_size (dir : list entry) (max_bytes : option Z) : state :=
  match max_bytes with
  | None => {| files := []; total_size := 0; log_dir := dir; log := [] |}
  | Some max_bytes =>
      let st := initial_state dir in
      while_loop (List.length (files st)) max_bytes st
  end.

(** *** The words of the specification *)

(** The summed size of the log files of a directory. *)
Definition folder_size (dir : list entry) : Z := sum_sizes (filter is_log_file dir).

(** The directory without the entries named in [deleted]. *)
Definition without (deleted dir : list entry) : list entry :=
  filter (fun g => negb (existsb (fun d => String.eqb (name g) (name d)) deleted)) dir.

Definition log_file (n : string) (mtime : Z) (size : N) (ok : bool) : entry :=
  {| name := n; is_file := true; st_mtime := mtime; st_size := size; removable := ok |}.

(** Three log files of 10, 20 and 30 bytes, oldest first, in the order the
    directory lists them. *)
Definition three_logs : list entry :=
  [log_file "b.log" 2 20 true; log_file "c.log.1" 3 30 true; log_file "a.log" 1 10 true].

(** The same, the oldest one being impossible to delete. *)
Definition three_logs_locked : list entry :=
  [log_file "b.log" 2 20 true; log_file "c.log.1" 3 30 true; log_file "a.log" 1 10 false].

(** The files the loop works on, oldest first. *)
Definition candidates (dir : list entry) : list entry :=
  sorted_by_mtime (filter is_log_file dir).




(** *** Lists *)

Lemma skipn_cons_step {A : Type} (k : nat) (l : list A) (x : A) (rest : list A) :
  skipn k l = x :: rest ->
  skipn (S k) l = rest /\ firstn (S k) l = firstn k l ++ [x].
Proof.
  revert l. induction k as [|k IH]; intros [|y l] H; try discriminate H.
  - cbn in H. injection H as -> ->. now split.
  - cbn [skipn] in H. destruct (IH l H) as [H1 H2]. split.
    + exact H1.
    + cbn [firstn app]. now rewrite <- H2.
Qed.



Lemma filter_filter {A : Type} (p q : A -> bool) (l : list A) :
  filter p (filter q l) = filter (fun x => q x && p x) l.
Proof.
  induction l as [|x l IH]; [reflexivity|].
  cbn [filter]. destruct (q x); cbn [filter andb]; now rewrite IH.
Qed.

(** *** Deleting by name *)

Lemma unlink_without (f : entry) (deleted dir : list entry) :
  unlink f (without deleted dir) = without (deleted ++ [f]) dir.
Proof.
  unfold unlink, without. rewrite filter_filter. apply filter_ext.
  intros g. rewrite existsb_app. cbn [existsb]. now rewrite orb_false_r, negb_orb.
Qed.

Lemma without_nil (dir : list entry) : without [] dir = dir.
Proof.
  unfold without. cbn [existsb negb]. induction dir as [|g dir IH]; [reflexivity|].
  cbn [filter]. now rewrite IH.
Qed.







(** *** The sort *)

Lemma insert_by_mtime_Permutation (f : entry) (l : list entry) :
  Permutation (insert_by_mtime f l) (f :: l).
Proof.
  induction l as [|g l IH]; cbn [insert_by_mtime]; [apply Permutation_refl|].
  destruct (st_mtime f <=? st_mtime g)%Z; [apply Permutation_refl|].
  apply (Permutation_trans (perm_skip g IH)), perm_swap.
Qed.

Lemma sorted_by_mtime_Permutation (l : list entry) :
  Permutation (sorted_by_mtime l) l.
Proof.
  induction l as [|f l IH]; cbn [sorted_by_mtime]; [constructor|].
  apply (Permutation_trans (insert_by_mtime_Permutation f _)). now constructor.
Qed.




(** *** Sizes and names *)

Lemma sum_sizes_Permutation (l l' : list entry) :
  Permutation l l' -> sum_sizes l = sum_sizes l'.
Proof.
  induction 1 as [|x l l' _ IH|x y l|l l' l'' _ IH1 _ IH2]; cbn [sum_sizes]; lia.
Qed.

Lemma sum_sizes_app (l l' : list entry) :
  sum_sizes (l ++ l') = (sum_sizes l + sum_sizes l')%Z.
Proof.
  induction l as [|x l IH]; cbn [app sum_sizes]; lia.
Qed.

Lemma sum_sizes_nonneg (l : list entry) : (0 <= sum_sizes l)%Z.
Proof.
  induction l as [|x l IH]; cbn [sum_sizes]; lia.
Qed.



Lemma same_name_same_entry (dir : list entry) (f g : entry) :
  NoDup (map name dir) -> In f dir -> In g dir -> name f = name g -> f = g.
Proof.
  induction dir as [|h dir IH]; intros Hnd Hf Hg E; [destruct Hf|].
  cbn [map] in Hnd. apply NoDup_cons_iff in Hnd. destruct Hnd as [Hh Hnd].
  destruct Hf as [->|Hf], Hg as [->|Hg].
  - reflexivity.
  - elim Hh. rewrite E. now apply in_map.
  - elim Hh. rewrite <- E. now apply in_map.
  - now apply IH.
Qed.

Lemma candidates_In (dir : list entry) (f : entry) :
  In f (candidates dir) <-> In f dir /\ is_log_file f = true.
Proof.
  unfold candidates. rewrite <- filter_In. split; apply Permutation_in.
  - apply sorted_by_mtime_Permutation.
  - apply Permutation_sym, sorted_by_mtime_Permutation.
Qed.

(** Deleting candidates leaves the other entries of the directory. *)
Lemma without_keeps_others (dir deleted : list entry) (f : entry) :
  NoDup (map name dir) ->
  incl deleted (candidates dir) ->
  In f dir -> is_log_file f = false ->
  In f (without deleted dir).
Proof.
  intros Hnd Hincl Hf Hlog. unfold without. apply filter_In. split; [exact Hf|].
  apply negb_true_iff, not_true_is_false. intros Hex.
  apply existsb_exists in Hex. destruct Hex as [d [Hd E]].
  apply String.eqb_eq in E. apply Hincl, candidates_In in Hd. destruct Hd as [Hd Hdl].
  rewrite (same_name_same_entry dir f d Hnd Hf Hd E) in Hlog. congruence.
Qed.


(** *** The loop *)

(** The loop has ended within as many turns as there are files. *)
Lemma while_loop_ends (max_bytes : Z) (fuel : nat) :
  forall st,
    (List.length (files st) <= fuel)%nat ->
    loop_condition max_bytes (while_loop fuel max_bytes st) = false.
Proof.
  induction fuel as [|fuel IH]; intros st Hlen.
  - cbn. unfold loop_condition. destruct (files st); [|cbn in Hlen; lia].
    apply andb_false_r.
  - cbn [while_loop]. destruct (loop_condition max_bytes st) eqn:Hc; [|exact Hc].
    apply IH. unfold loop_body. destruct (files st) as [|oldest rest] eqn:E.
    + rewrite E. cbn. lia.
    + cbn in Hlen. destruct (removable oldest); cbn; lia.
Qed.



(** *** The claims about the enforcer *)




(** C7, as stated, fails: when the oldest of [three_logs_locked] cannot be
    deleted, the running total stays at 60 bytes instead of going down by the
    10 bytes of that file; with a limit of 50 bytes the loop therefore goes on
    and deletes the next file, which a total of 50 would have spared. *)
Lemma failed_deletion_keeps_total :
  files (initial_state three_logs_locked)
  = [log_file "a.log" 1 10 false; log_file "b.log" 2 20 true; log_file "c.log.1" 3 30 true]
  /\ total_size (initial_state three_logs_locked) = 60%Z
  /\ total_size (loop_body (initial_state three_logs_locked)) = 60%Z
  /\ total_size (loop_body (initial_state three_logs_locked))
     <> (total_size (initial_state three_logs_locked) - 10)%Z
  /\ log_dir (enforce_max_folder_size three_logs_locked (Some 50%Z))
     = [log_file "c.log.1" 3 30 true; log_file "a.log" 1 10 false].
Proof.
  split; [reflexivity|]. split; [reflexivity|]. split; [reflexivity|].
  split; [|reflexivity]. cbn. discriminate.
Qed.

(** C7 (amended): when the deletion of a file fails, the failure is logged
    and the file is skipped: the turn leaves the directory and the running
    total as they were (the file stays counted), and the loop goes on with the
    next-oldest file; whatever fails, the function returns, its loop having
    ended. *)
Theorem failed_deletion_is_skipped :
  (forall st oldest rest,
      files st = oldest :: rest ->
      removable oldest = false ->
      loop_body st
      = {| files := rest;
           total_size := total_size st;
           log_dir := log_dir st;
           log := log st
                  ++ [(ERROR, "Failed to delete " ++ dquote ++ name oldest ++ dquote)%string] |})
  /\ (forall fuel max_bytes st oldest rest,
        files st = oldest :: rest ->
        removable oldest = false ->
        (max_bytes < total_size st)%Z ->
        while_loop (S fuel) max_bytes st
        = while_loop fuel max_bytes
            {| files := rest;
               total_size := total_size st;
               log_dir := log_dir st;
               log := log st
                      ++ [(ERROR, "Failed to delete " ++ dquote ++ name oldest ++ dquote)%string] |})
  /\ (forall dir max_bytes,
        loop_condition max_bytes (enforce_max_folder_size dir (Some max_bytes)) = false)
  /\ log (enforce_max_folder_size three_logs_locked (Some 50%Z))
     = [(ERROR, "Failed to delete " ++ dquote ++ "a.log" ++ dquote)%string;
        (DEBUG, "Deleted " ++ dquote ++ "b.log" ++ dquote)%string].
Proof.
  split; [|split; [|split]]; try reflexivity.
  - intros st oldest rest E Hfail. unfold loop_body. now rewrite E, Hfail.
  - intros fuel max_bytes st oldest rest E Hfail Hover.
    cbn [while_loop]. unfold loop_condition, loop_body. rewrite E, Hfail.
    apply Z.ltb_lt in Hover. now rewrite Hover.
  - intros dir max_bytes. cbn [enforce_max_folder_size]. apply while_loop_ends, le_n.
Qed.

(** The first turn on [three_logs_locked]. *)
Lemma failed_deletion_is_skipped_witness :
  loop_body (initial_state three_logs_locked)
  = {| files := [log_file "b.log" 2 20 true; log_file "c.log.1" 3 30 true];
       total_size := 60;
       log_dir := three_logs_locked;
       log := [(ERROR, "Failed to delete " ++ dquote ++ "a.log" ++ dquote)%string] |}.
Proof.
  apply (proj1 failed_deletion_is_skipped (initial_state three_logs_locked)
           (log_file "a.log" 1 10 false)); reflexivity.
Defined.

End Retention.

(** * Laws of the Tree Search *)
Module SearchLaws.
Import TreeSearch.

(** What a call gives when the list it is handed already holds [found]. *)
Definition prepend (found : list json) (r : result) : result :=
  match r with
  | Return l => Return (found ++ l)
  | Raise e l => Raise e (found ++ l)
  end.

(** The search within a result: go on with [k] on what was returned. *)
Definition and_then (r : result) (k : list json -> result) : result :=
  match r with
  | Return l => k l
  | Raise e l => Raise e l
  end.

(** A payload found in a document: the [chunk_data] of one of its mappings,
    whose [plugin_path] is a string ending with the suffix. *)
Definition payload_of (doc c : json) : Prop :=
  exists items p,
    In (JDict items) (preorder doc)
    /\ lookup "plugin_path" items = Some (JStr p)
    /\ endswith p target_suffix = true
    /\ lookup "chunk_data" items = Some c.

(** [l] is the beginning of [m]. *)
Definition prefix_of (l m : list json) : Prop := exists rest, m = l ++ rest.

Lemma prepend_nil (r : result) : prepend [] r = r.
Proof. now destruct r. Qed.

Lemma prepend_prepend (a b : list json) (r : result) :
  prepend a (prepend b r) = prepend (a ++ b) r.
Proof. destruct r; cbn; now rewrite app_assoc. Qed.

Lemma visit_dict_prepend (items : list (string * json)) (found : list json) :
  visit_dict items found = prepend found (visit_dict items []).
Proof.
  unfold visit_dict.
  destruct (value_endswith (dict_get items "plugin_path" (JStr ""))) as [[]|];
    cbn; try now rewrite app_nil_r.
  destruct (is_not_None (dict_get items "chunk_data" JNull)); cbn;
    now rewrite ?app_nil_r.
Qed.

Lemma find_in_elems_prepend (py : interpreter) (frames : nat) (elems : list json) :
  (forall v, In v elems ->
     forall found, find_chunk_data_in_json py frames v (Some found)
                   = prepend found (find_chunk_data_in_json py frames v None)) ->
  forall found,
    find_in_elems py frames elems found = prepend found (find_in_elems py frames elems []).
Proof.
  induction elems as [|v rest IH]; intros Hall found.
  - cbn. now rewrite app_nil_r.
  - cbn [find_in_elems]. rewrite (Hall v (or_introl eq_refl) found).
    rewrite <- (find_None py frames v).
    specialize (IH (fun w Hw => Hall w (or_intror Hw))).
    destruct (find_chunk_data_in_json py frames v None) as [a|e a]; cbn [prepend].
    + rewrite (IH (found ++ a)), (IH a). now rewrite prepend_prepend.
    + reflexivity.
Qed.

Lemma find_in_values_prepend (py : interpreter) (frames : nat)
      (items : list (string * json)) :
  (forall k v, In (k, v) items ->
     forall found, find_chunk_data_in_json py frames v (Some found)
                   = prepend found (find_chunk_data_in_json py frames v None)) ->
  forall found,
    find_in_values py frames items found
    = prepend found (find_in_values py frames items []).
Proof.
  induction items as [|[k v] rest IH]; intros Hall found.
  - cbn. now rewrite app_nil_r.
  - cbn [find_in_values]. rewrite (Hall k v (or_introl eq_refl) found).
    rewrite <- (find_None py frames v).
    specialize (IH (fun k' w Hw => Hall k' w (or_intror Hw))).
    destruct (find_chunk_data_in_json py frames v None) as [a|e a]; cbn [prepend].
    + rewrite (IH (found ++ a)), (IH a). now rewrite prepend_prepend.
    + reflexivity.
Qed.

(** X1: calling the search with a list that already holds [found] gives what
    a fresh call gives, after [found]: the same payloads in the same order
    when it returns, and the same exception with the same payloads appended
    before it when it raises.  What the list held never changes what is
    found. *)
Theorem found_is_only_a_prefix (py : interpreter) (frames : nat) (doc : json)
        (found : list json) :
  find_chunk_data_in_json py frames doc (Some found)
  = prepend found (find_chunk_data_in_json py frames doc None).
Proof.
  revert frames found.
  induction doc as [| | | | |elems IH|items IH] using json_induction;
    intros frames found;
    (destruct frames as [|frames];
     [rewrite find_None, !find_no_frames; cbn; now rewrite app_nil_r|]);
    try (cbn; now rewrite app_nil_r).
  - rewrite find_None, !find_list.
    apply find_in_elems_prepend. intros v Hv. apply (IH v Hv).
  - rewrite find_None, !find_dict, (visit_dict_prepend items found).
    destruct (frames <? get_levels py)%nat; [cbn; now rewrite app_nil_r|].
    destruct (visit_dict items []) as [a|e a]; cbn [prepend app]; [|reflexivity].
    destruct (frames <? method_levels py)%nat; [cbn; now rewrite app_nil_r|].
    now rewrite (find_in_values_prepend py frames items
                   (fun k v Hv => IH k v Hv frames) (found ++ a)),
      (find_in_values_prepend py frames items (fun k v Hv => IH k v Hv frames) a),
      prepend_prepend.
Qed.

(** X2: every element of a returned Match Set is the [chunk_data] of a
    mapping of the document whose [plugin_path] is a string ending with the
    suffix, and it is never null. *)
Theorem match_set_holds_payloads_only (py : interpreter) (frames : nat) (doc : json)
        (ms : list json) (c : json) :
  find_chunk_data_in_json py frames doc None = Return ms ->
  In c ms ->
  c <> JNull /\ payload_of doc c.
Proof.
  intros Hret Hin.
  assert (Hms : ms = match_set doc).
  { assert (Hr : exists ms', find_chunk_data_in_json py frames doc None = Return ms')
      by (eexists; exact Hret).
    apply find_returns_iff in Hr. destruct Hr as [Hstr Hd].
    rewrite find_None, (find_returns _ _ _ _ Hstr Hd) in Hret. now injection Hret as <-. }
  subst ms. unfold match_set in Hin. apply in_flat_map in Hin.
  destruct Hin as [v [Hv Hc]]. unfold own_chunk in Hc.
  destruct (chunk_of v) as [c'|] eqn:E; [|destruct Hc].
  destruct Hc as [->|[]]. unfold chunk_of in E.
  destruct v as [| | | | | |items]; try discriminate E.
  destruct (lookup "plugin_path" items) as [[| | | |p| |]|] eqn:Hp; try discriminate E.
  destruct (endswith p target_suffix) eqn:Hend; [|discriminate E].
  destruct (lookup "chunk_data" items) as [c'|] eqn:Hcd; [|discriminate E].
  assert (Hnn : c' <> JNull /\ c' = c).
  { destruct c'; try discriminate E; injection E as <-; split;
      try reflexivity; discriminate. }
  destruct Hnn as [Hnn <-]. split; [exact Hnn|].
  exists items, p. now repeat split.
Qed.

(** A payload of [small_scene]. *)
Lemma match_set_holds_payloads_only_witness :
  JStr "Zm9v" <> JNull /\ payload_of small_scene (JStr "Zm9v").
Proof.
  apply (match_set_holds_payloads_only cpython311 6 small_scene [JStr "Zm9v"] (JStr "Zm9v")).
  - reflexivity.
  - now left.
Defined.

(** X3: a mapping without [plugin_path] key is transparent, when the stack
    has the levels that the calls of its methods take: the search on it is
    the search on the sequence of its values, whatever its keys are and
    whatever the list already holds.  A value nested under one key other than
    [plugin_path], or alone in a sequence, is searched as it is when it stands
    alone on a stack with one frame less: the wrapping costs one frame and
    changes nothing else. *)
Theorem mapping_without_plugin_path_is_transparent :
  (forall py frames items found,
      lookup "plugin_path" items = None ->
      get_levels py <= frames ->
      method_levels py <= frames ->
      find_chunk_data_in_json py (S frames) (JDict items) found
      = find_chunk_data_in_json py (S frames) (JList (map snd items)) found)
  /\ (forall py frames key doc found,
        key <> "plugin_path" ->
        get_levels py <= frames ->
        method_levels py <= frames ->
        find_chunk_data_in_json py (S frames) (JDict [(key, doc)]) (Some found)
        = find_chunk_data_in_json py frames doc (Some found))
  /\ (forall py frames doc found,
        find_chunk_data_in_json py (S frames) (JList [doc]) (Some found)
        = find_chunk_data_in_json py frames doc (Some found)).
Proof.
  assert (Hone : forall py frames doc found,
             find_chunk_data_in_json py (S frames) (JList [doc]) (Some found)
             = find_chunk_data_in_json py frames doc (Some found)).
  { intros py frames doc found. rewrite find_list. cbn [find_in_elems].
    now destruct (find_chunk_data_in_json py frames doc (Some found)). }
  assert (Hall : forall py frames items found,
             lookup "plugin_path" items = None ->
             get_levels py <= frames ->
             method_levels py <= frames ->
             find_chunk_data_in_json py (S frames) (JDict items) found
             = find_chunk_data_in_json py (S frames) (JList (map snd items)) found).
  { intros py frames items found Hno Hg Hm.
    assert (Hsome : forall f,
               find_chunk_data_in_json py (S frames) (JDict items) (Some f)
               = find_chunk_data_in_json py (S frames) (JList (map snd items)) (Some f)).
    { intros f. rewrite find_dict, find_list, (proj2 (Nat.ltb_ge _ _) Hg).
      unfold visit_dict, dict_get. rewrite Hno. cbn [value_endswith].
      change (endswith "" target_suffix) with false. cbv iota.
      rewrite (proj2 (Nat.ltb_ge _ _) Hm).
      clear Hno. revert f. induction items as [|[k v] rest IH]; intros f;
        [reflexivity|].
      cbn [find_in_values find_in_elems map snd].
      destruct (find_chunk_data_in_json py frames v (Some f)); [apply IH|reflexivity]. }
    destruct found as [f|]; [apply Hsome|].
    rewrite find_None, (find_None _ _ (JList _)). apply Hsome. }
  split; [exact Hall|]. split; [|exact Hone].
  intros py frames key doc found Hkey Hg Hm.
  rewrite (Hall py frames [(key, doc)] (Some found)); [apply Hone| |exact Hg|exact Hm].
  cbn [lookup]. now rewrite (proj2 (String.eqb_neq _ _) Hkey).
Qed.

(** A scene nested under another key, on a stack of seven frames, gives what
    the scene gives on six. *)
Lemma mapping_without_plugin_path_is_transparent_witness :
  find_chunk_data_in_json cpython311 7 (JDict [("scene", small_scene)]) (Some [])
  = find_chunk_data_in_json cpython311 6 small_scene (Some []).
Proof.
  apply (proj1 (proj2 mapping_without_plugin_path_is_transparent) cpython311 6);
    [discriminate|apply Nat.leb_le; reflexivity|apply Nat.leb_le; reflexivity].
Defined.

(** X4: the search on a sequence split in two parts is the search on the
    first part followed, if it returned, by the search on the second part
    with the list as the first part left it; an exception in the first part
    is the outcome, and the second part is not looked at. *)
Theorem search_of_concatenation (py : interpreter) (frames : nat) (l1 l2 : list json)
        (found : list json) :
  find_chunk_data_in_json py frames (JList (l1 ++ l2)) (Some found)
  = and_then (find_chunk_data_in_json py frames (JList l1) (Some found))
             (fun found' => find_chunk_data_in_json py frames (JList l2) (Some found')).
Proof.
  destruct frames as [|frames]; [now rewrite !find_no_frames|].
  rewrite !find_list. revert found.
  induction l1 as [|v rest IH]; intros found.
  - cbn [app find_in_elems and_then]. now rewrite find_list.
  - cbn [app find_in_elems].
    destruct (find_chunk_data_in_json py frames v (Some found)) as [a|e a]; [|reflexivity].
    apply IH.
Qed.

(** *** What the list holds when the search raises *)

Lemma prefix_of_nil (m : list json) : prefix_of [] m.
Proof. now exists m. Qed.

Lemma prefix_of_app (a l m rest : list json) :
  prefix_of l m -> prefix_of (a ++ l) (a ++ m ++ rest).
Proof. intros [r ->]. exists (r ++ rest). now rewrite <- !app_assoc. Qed.

Lemma prefix_of_weaken (l m rest : list json) : prefix_of l m -> prefix_of l (m ++ rest).
Proof. intros [r ->]. exists (r ++ rest). now rewrite <- app_assoc. Qed.

(** A call that returns has appended the Match Set. *)
Lemma find_return_is_match_set (py : interpreter) (frames : nat) (doc : json)
      (found a : list json) :
  find_chunk_data_in_json py frames doc (Some found) = Return a ->
  a = found ++ match_set doc.
Proof.
  intros E. pose proof (find_return_fits _ _ _ _ _ E) as Hd.
  destruct (plugin_paths_are_str doc) eqn:Hstr.
  - rewrite (find_returns _ _ _ _ Hstr Hd) in E. now injection E as <-.
  - destruct (find_raises py frames doc found Hstr Hd) as [l Hl].
    rewrite Hl in E. discriminate E.
Qed.

Lemma find_in_elems_raise_prefix (py : interpreter) (frames : nat) (elems : list json) :
  (forall v, In v elems ->
     forall found e a,
       find_chunk_data_in_json py frames v (Some found) = Raise e a ->
       exists l, a = found ++ l /\ prefix_of l (match_set v)) ->
  forall found e a,
    find_in_elems py frames elems found = Raise e a ->
    exists l, a = found ++ l /\ prefix_of l (flat_map match_set elems).
Proof.
  induction elems as [|v rest IH]; intros Hall found e a E; [discriminate E|].
  cbn [find_in_elems] in E. cbn [flat_map].
  destruct (find_chunk_data_in_json py frames v (Some found)) as [a1|e1 a1] eqn:Ev.
  - apply find_return_is_match_set in Ev. subst a1.
    destruct (IH (fun w Hw => Hall w (or_intror Hw)) _ _ _ E) as [l [-> Hl]].
    exists (match_set v ++ l). split; [now rewrite app_assoc|].
    destruct Hl as [r ->]. exists r. now rewrite app_assoc.
  - injection E as -> ->.
    destruct (Hall v (or_introl eq_refl) _ _ _ Ev) as [l [-> Hl]].
    exists l. split; [reflexivity|]. now apply prefix_of_weaken.
Qed.

Lemma find_in_values_raise_prefix (py : interpreter) (frames : nat)
      (items : list (string * json)) :
  (forall k v, In (k, v) items ->
     forall found e a,
       find_chunk_data_in_json py frames v (Some found) = Raise e a ->
       exists l, a = found ++ l /\ prefix_of l (match_set v)) ->
  forall found e a,
    find_in_values py frames items found = Raise e a ->
    exists l, a = found ++ l
              /\ prefix_of l (flat_map (fun kv => match_set (snd kv)) items).
Proof.
  induction items as [|[k v] rest IH]; intros Hall found e a E; [discriminate E|].
  cbn [find_in_values] in E. cbn [flat_map snd].
  destruct (find_chunk_data_in_json py frames v (Some found)) as [a1|e1 a1] eqn:Ev.
  - apply find_return_is_match_set in Ev. subst a1.
    destruct (IH (fun k' w Hw => Hall k' w (or_intror Hw)) _ _ _ E) as [l [-> Hl]].
    exists (match_set v ++ l). split; [now rewrite app_assoc|].
    destruct Hl as [r ->]. exists r. now rewrite app_assoc.
  - injection E as -> ->.
    destruct (Hall k v (or_introl eq_refl) _ _ _ Ev) as [l [-> Hl]].
    exists l. split; [reflexivity|]. now apply prefix_of_weaken.
Qed.

Lemma find_raise_prefix (py : interpreter) (doc : json) :
  forall frames found e a,
    find_chunk_data_in_json py frames doc (Some found) = Raise e a ->
    exists l, a = found ++ l /\ prefix_of l (match_set doc).
Proof.
  induction doc as [| | | | |elems IH|items IH] using json_induction;
    intros frames found e a E;
    (destruct frames as [|frames];
     [rewrite find_no_frames in E; injection E as _ <-; exists [];
      split; [now rewrite app_nil_r|apply prefix_of_nil]|]);
    try discriminate E.
  - rewrite find_list in E. rewrite match_set_list.
    apply (find_in_elems_raise_prefix py frames elems (fun v Hv => IH v Hv frames) _ _ _ E).
  - rewrite find_dict in E. rewrite match_set_dict.
    destruct (frames <? get_levels py)%nat.
    { injection E as _ <-. exists []. split; [now rewrite app_nil_r|apply prefix_of_nil]. }
    destruct (plugin_path_is_str (JDict items)) eqn:Hstr.
    + rewrite (visit_dict_str _ _ Hstr) in E.
      destruct (frames <? method_levels py)%nat.
      { injection E as _ <-. exists [].
        split; [now rewrite app_nil_r|apply prefix_of_nil]. }
      destruct (find_in_values_raise_prefix py frames items
                  (fun k v Hv => IH k v Hv frames) _ _ _ E) as [l [-> Hl]].
      exists (own_chunk (JDict items) ++ l). split; [now rewrite app_assoc|].
      destruct Hl as [r ->]. exists r. now rewrite app_assoc.
    + rewrite (visit_dict_not_str _ _ Hstr) in E. injection E as _ <-.
      exists []. split; [now rewrite app_nil_r|apply prefix_of_nil].
Qed.

(** X20: whatever way the search ends, the list holds what it held followed
    by a beginning of the Match Set of the document, in order: all of it when
    the search returns, and when it raises, [AttributeError] or
    [RecursionError], the payloads of the qualifying mappings it visited
    before, with no gap, no repeat and nothing else. *)
Theorem list_holds_a_beginning_of_the_match_set (py : interpreter) (frames : nat)
        (doc : json) (found : list json) :
  match find_chunk_data_in_json py frames doc (Some found) with
  | Return a => a = found ++ match_set doc
  | Raise _ a => exists l, a = found ++ l /\ prefix_of l (match_set doc)
  end.
Proof.
  destruct (find_chunk_data_in_json py frames doc (Some found)) as [a|e a] eqn:E.
  - now apply (find_return_is_match_set py frames).
  - now apply (find_raise_prefix py doc frames found e).
Qed.

(** X21: the stack decides whether the search answers, never what it
    answers: a Match Set returned on one interpreter with some frames left is
    the one returned on any interpreter with any number of frames that the
    document fits. *)
Theorem answer_does_not_depend_on_the_stack (py py' : interpreter) (frames frames' : nat)
        (doc : json) (found : option (list json)) (ms : list json) :
  find_chunk_data_in_json py frames doc found = Return ms ->
  depth py' doc <= frames' ->
  find_chunk_data_in_json py' frames' doc found = Return ms.
Proof.
  assert (H : forall f,
             find_chunk_data_in_json py frames doc (Some f) = Return ms ->
             depth py' doc <= frames' ->
             find_chunk_data_in_json py' frames' doc (Some f) = Return ms).
  { intros f E Hd'. pose proof (find_return_fits _ _ _ _ _ E) as Hd.
    rewrite (find_fits _ _ _ _ Hd) in E. now rewrite (find_fits _ _ _ _ Hd'). }
  destruct found as [f|]; [apply H|].
  rewrite !find_None. apply H.
Qed.

(** [small_scene], searched on six frames and on the whole default stack of
    an interpreter that counts no call of a built-in method. *)
Lemma answer_does_not_depend_on_the_stack_witness :
  find_chunk_data_in_json apart default_recursion_limit small_scene None
  = Return [JStr "Zm9v"].
Proof.
  apply (answer_does_not_depend_on_the_stack cpython311 apart 6 default_recursion_limit
           small_scene None [JStr "Zm9v"]).
  - reflexivity.
  - apply Nat.leb_le. reflexivity.
Defined.

End SearchLaws.

(** * Laws of the Duration Formatter *)
Module DurationLaws.
Import Duration.

(** The length of a year in the table, in nanoseconds. *)
Definition year_ns : Z := 365 * 24 * 60 * 60 * 1000000000.

(** The units with a non-zero value, largest first, each with its value and
    its factor; the loop of the code turns the first two into text. *)
Fixpoint nonzero_units (units : list (string * Z)) (ns : Z) : list (string * Z * Z) :=
  match units with
  | [] => []
  | (name, factor) :: rest =>
      let value := (ns / factor)%Z in
      if (value =? 0)%Z then nonzero_units rest (ns mod factor)%Z
      else (name, value, factor) :: nonzero_units rest (ns mod factor)%Z
  end.

(** The units a text shows, and the nanoseconds they stand for. *)
Definition shown_units (ns : Z) : list (string * Z * Z) :=
  firstn 2 (nonzero_units units ns).

Fixpoint amount (parts : list (string * Z * Z)) : Z :=
  match parts with
  | [] => 0%Z
  | (_, value, factor) :: rest => (value * factor + amount rest)%Z
  end.

(** The factor of the last unit shown. *)
Definition last_factor (parts : list (string * Z * Z)) : Z :=
  snd (last parts ("", 0%Z, 1%Z)).

Lemma nonzero_units_values (us : list (string * Z)) (ns : Z) :
  map fst (nonzero_units us ns) = filter nonzero (unit_values us ns).
Proof.
  revert ns. induction us as [|[name factor] rest IH]; intros ns; [reflexivity|].
  cbn [nonzero_units unit_values filter]. unfold nonzero at 1. cbn [snd].
  destruct (ns / factor =? 0)%Z; cbn [negb map fst]; now rewrite IH.
Qed.

(** What the first [k] non-zero units stand for is at most the count, and
    misses it by less than one of the last of them. *)
Lemma amount_firstn (us : list (string * Z)) :
  Forall (fun u => 0 < snd u)%Z us ->
  forall ns k,
    (0 <= ns)%Z ->
    (amount (firstn k (nonzero_units us ns)) <= ns)%Z
    /\ (firstn k (nonzero_units us ns) <> [] ->
        (ns - amount (firstn k (nonzero_units us ns))
         < last_factor (firstn k (nonzero_units us ns)))%Z).
Proof.
  induction 1 as [|[name factor] rest Hf _ IH]; intros ns k Hns.
  - cbn. rewrite firstn_nil. cbn. split; [lia|congruence].
  - cbn [snd] in Hf. cbn [nonzero_units].
    pose proof (Z.div_mod ns factor ltac:(lia)) as Hdm.
    pose proof (Z.mod_pos_bound ns factor Hf) as Hmod.
    destruct (Z.eqb_spec (ns / factor) 0) as [Hz|Hz].
    + rewrite Hz in Hdm. replace (ns mod factor)%Z with ns by lia. now apply IH.
    + destruct k as [|k]; [cbn; split; [lia|congruence]|].
      cbn [firstn amount].
      destruct (IH (ns mod factor)%Z k ltac:(lia)) as [IH1 IH2].
      split; [lia|]. intros _. unfold last_factor in *.
      destruct (firstn k (nonzero_units rest (ns mod factor))) as [|p l] eqn:E.
      * cbn. lia.
      * cbn [last]. specialize (IH2 ltac:(discriminate)). cbn [last] in IH2. lia.
Qed.

(** *** Decimal text *)

Lemma unorm_no_leading_zero (d d' : Decimal.uint) :
  Decimal.unorm d = Decimal.D0 d' -> d' = Decimal.Nil.
Proof.
  induction d; cbn; intros H; try discriminate H; try now apply IHd.
  now injection H as <-.
Qed.

Lemma to_uint_no_leading_zero (p : positive) (d : Decimal.uint) :
  Pos.to_uint p <> Decimal.D0 d.
Proof.
  intros H. pose proof (DecimalPos.Unsigned.to_of (Pos.to_uint p)) as Hn.
  rewrite DecimalPos.Unsigned.of_to in Hn. cbn in Hn. rewrite H in Hn.
  symmetry in Hn. pose proof (unorm_no_leading_zero _ _ Hn) as ->.
  now apply (DecimalPos.Unsigned.to_uint_nonzero p).
Qed.

(** The text of a non-zero integer starts with a sign or a digit that is
    not 0. *)
Lemma str_of_Z_first (n : Z) :
  n <> 0%Z ->
  exists c rest, str_of_Z n = String c rest /\ c <> "0"%char.
Proof.
  intros Hn. unfold str_of_Z. destruct n as [|p|p]; [now elim Hn| |].
  - cbn. unfold NilZero.string_of_uint.
    pose proof (to_uint_no_leading_zero p) as H0.
    pose proof (DecimalPos.Unsigned.to_uint_nonnil p) as Hnil.
    destruct (Pos.to_uint p); cbn;
      try (now elim Hnil); try (now elim (H0 u));
      eexists; eexists; (split; [reflexivity|discriminate]).
  - cbn. eexists; eexists; split; [reflexivity|discriminate].
Qed.

Lemma concat_first (c : ascii) (rest : string) (tail : list string) :
  exists rest', String.concat "" (String c rest :: tail) = String c rest'.
Proof.
  destruct tail; cbn; now eexists.
Qed.

Lemma no_part_all_zero (parts : list (string * Z)) :
  filter nonzero parts = [] -> Forall (fun p => snd p = 0%Z) parts.
Proof.
  induction parts as [|p parts IH]; intros H; [constructor|].
  cbn [filter] in H. unfold nonzero at 1 in H.
  destruct (Z.eqb_spec (snd p) 0) as [Hz|Hz]; cbn [negb] in H; [|discriminate H].
  constructor; [exact Hz|now apply IH].
Qed.

Lemma total_all_zero (us parts : list (string * Z)) :
  Forall (fun p => snd p = 0%Z) parts -> total us parts = 0%Z.
Proof.
  intros H. revert us. induction H as [|[n v] parts Hv _ IH]; intros [|[m f] us];
    try reflexivity.
  cbn [total]. cbn [snd] in Hv. rewrite IH. lia.
Qed.

(** A count that is not zero has a unit whose value is not zero. *)
Lemma nonzero_count_has_part (ns : Z) :
  ns <> 0%Z -> filter nonzero (unit_values units ns) <> [].
Proof.
  intros Hns H. apply Hns. rewrite <- (unit_values_total ns).
  now apply total_all_zero, no_part_all_zero.
Qed.

Lemma filter_nonzero_value (parts : list (string * Z)) (p : string * Z) (l : list (string * Z)) :
  filter nonzero parts = p :: l -> snd p <> 0%Z.
Proof.
  intros H. assert (Hin : In p (filter nonzero parts)) by (rewrite H; now left).
  apply filter_In in Hin. destruct Hin as [_ Hnz]. unfold nonzero in Hnz.
  apply negb_true_iff, Z.eqb_neq in Hnz. exact Hnz.
Qed.

(** X5: the text is "0s" exactly when the nanosecond count is zero: no other
    count, positive or negative, is rendered as "0s". *)
Theorem zero_text_iff_zero_count (ns : Z) :
  format_ns ns = "0s" <-> ns = 0%Z.
Proof.
  split; [|now intros ->].
  intros H. destruct (Z.eq_dec ns 0) as [Hz|Hnz]; [exact Hz|exfalso].
  rewrite format_ns_rendering in H. unfold rendering, two_largest_nonzero in H.
  pose proof (nonzero_count_has_part ns Hnz) as Hne.
  destruct (filter nonzero (unit_values units ns)) as [|p l] eqn:E; [now elim Hne|].
  pose proof (filter_nonzero_value _ _ _ E) as Hv.
  cbn [firstn map] in H. unfold part_text at 1 in H.
  destruct (str_of_Z_first (snd p) Hv) as [c [rest [Hs Hc]]]. rewrite Hs in H.
  cbn [String.append] in H.
  change (match l with [] => [] | a :: _ => [a] end) with (firstn 1 l) in H.
  destruct (concat_first c (rest ++ fst p)%string (map part_text (firstn 1 l)))
    as [rest' Hcat].
  rewrite Hcat in H. injection H as H _. now elim Hc.
Qed.

(** X6: for a count that is not negative, the parts the loop collects are
    the first two non-zero values among nine, each within its range: up to 12
    months (a year of the table is 12 months and 5 days, so that 12 months go
    with less than 5 days), less than 30 days, 24 hours, 60 minutes, 60
    seconds, and less than 1000 milliseconds, microseconds and nanoseconds. *)
Theorem unit_values_in_range (ns : Z) :
  (0 <= ns)%Z ->
  exists y mo d h m s ms us n,
    collect_parts units ns []
    = map part_text
        (firstn 2
           (filter nonzero
              [("y", y); ("mo", mo); ("d", d); ("h", h); ("m", m); ("s", s);
               ("ms", ms); ("us", us); ("ns", n)]))
    /\ (0 <= y /\ 0 <= mo <= 12 /\ 0 <= d < 30 /\ (mo = 12 -> d < 5)
        /\ 0 <= h < 24 /\ 0 <= m < 60 /\ 0 <= s < 60
        /\ 0 <= ms < 1000 /\ 0 <= us < 1000 /\ 0 <= n < 1000)%Z.
Proof.
  intros Hns. rewrite collect_parts_firstn by (cbn; lia).
  cbn [List.length Nat.sub app]. unfold units. cbn [unit_values]. do 9 eexists.
  split; [reflexivity|].
  repeat match goal with
         | |- context [(1 * ?a)%Z] => rewrite (Z.mul_1_l a)
         end.
  Z.div_mod_to_equations. lia.
Qed.

(** 364 days: twelve months and four days. *)
Lemma unit_values_in_range_witness :
  exists y mo d h m s ms us n,
    collect_parts units (364 * 24 * 60 * 60 * 1000000000) []
    = map part_text
        (firstn 2
           (filter nonzero
              [("y", y); ("mo", mo); ("d", d); ("h", h); ("m", m); ("s", s);
               ("ms", ms); ("us", us); ("ns", n)]))
    /\ (0 <= y /\ 0 <= mo <= 12 /\ 0 <= d < 30 /\ (mo = 12 -> d < 5)
        /\ 0 <= h < 24 /\ 0 <= m < 60 /\ 0 <= s < 60
        /\ 0 <= ms < 1000 /\ 0 <= us < 1000 /\ 0 <= n < 1000)%Z.
Proof.
  apply (unit_values_in_range (364 * 24 * 60 * 60 * 1000000000)). lia.
Defined.

(** X7: a negative count is not rendered as a negated duration: the year
    takes the floor, so that from minus one year up to zero the text is "-1y"
    followed by the largest non-zero unit of the count plus one year. *)
Theorem negative_count_borrows_a_year (ns : Z) :
  (- year_ns <= ns < 0)%Z ->
  format_ns ns
  = ("-1y" ++ match filter nonzero (unit_values (tl units) (ns + year_ns)) with
              | [] => ""
              | p :: _ => part_text p
              end)%string.
Proof.
  intros Hns. rewrite format_ns_rendering. unfold rendering, two_largest_nonzero.
  change units with (("y", year_ns) :: tl units). cbn [unit_values filter tl].
  assert (Hy : (0 < year_ns)%Z) by reflexivity.
  replace (ns / year_ns)%Z with (-1)%Z
    by (unfold year_ns in *; Z.div_mod_to_equations; lia).
  replace (ns mod year_ns)%Z with (ns + year_ns)%Z
    by (unfold year_ns in *; Z.div_mod_to_equations; lia).
  change (nonzero ("y", (-1)%Z)) with true. cbv iota.
  change (part_text ("y", (-1)%Z)) with "-1y".
  destruct (filter nonzero (unit_values (tl units) (ns + year_ns))) as [|p l];
    reflexivity.
Qed.

(** One nanosecond before zero. *)
Lemma negative_count_borrows_a_year_witness : format_ns (-1) = "-1y12mo".
Proof.
  rewrite (negative_count_borrows_a_year (-1)); [reflexivity|].
  unfold year_ns. lia.
Defined.

Lemma units_positive : Forall (fun u => 0 < snd u)%Z units.
Proof. repeat constructor. Qed.

(** X8: for a count that is not negative, the units the text shows stand for
    at most the count and for more than the count less one of the last unit
    shown: the text never overstates the duration, and what it leaves out is
    less than one of its last unit. *)
Theorem shown_units_bound (ns : Z) :
  (0 <= ns)%Z ->
  format_ns ns
  = match shown_units ns with
    | [] => "0s"
    | parts => String.concat "" (map (fun p => part_text (fst p)) parts)
    end
  /\ (amount (shown_units ns) <= ns)%Z
  /\ (ns <> 0%Z -> (ns - amount (shown_units ns) < last_factor (shown_units ns))%Z).
Proof.
  intros Hns. unfold shown_units.
  destruct (amount_firstn units units_positive ns 2 Hns) as [Hle Hlt].
  split; [|split; [exact Hle|]].
  - rewrite format_ns_rendering. unfold rendering, two_largest_nonzero.
    rewrite <- nonzero_units_values, firstn_map.
    destruct (firstn 2 (nonzero_units units ns)) as [|p l]; [reflexivity|].
    cbn [map]. now rewrite map_map.
  - intros Hnz. apply Hlt. intros Hnil.
    apply (nonzero_count_has_part ns Hnz). rewrite <- nonzero_units_values.
    destruct (nonzero_units units ns); [reflexivity|discriminate Hnil].
Qed.

(** 3661 seconds: "1h1m" stands for 3660 seconds, less than a minute short. *)
Lemma shown_units_bound_witness :
  format_ns 3661000000000 = "1h1m"
  /\ (amount (shown_units 3661000000000) <= 3661000000000)%Z
  /\ (3661000000000 - amount (shown_units 3661000000000)
      < last_factor (shown_units 3661000000000))%Z.
Proof.
  destruct (shown_units_bound 3661000000000 ltac:(lia)) as [H1 [H2 H3]].
  split; [exact H1|]. split; [exact H2|]. apply H3. discriminate.
Defined.

End DurationLaws.

(** * Laws of the Log Retention Enforcer *)
Module RetentionLaws.
Import Retention.

(** The record the loop writes for a file it has popped. *)
Definition record_of (f : entry) : level * string :=
  if removable f then (DEBUG, "Deleted " ++ dquote ++ name f ++ dquote)%string
  else (ERROR, "Failed to delete " ++ dquote ++ name f ++ dquote)%string.

Definition can_delete (f : entry) : bool := removable f.
Definition cannot_delete (f : entry) : bool := negb (removable f).

(** What holds between two turns, whether deletions succeed or fail: the [k]
    oldest candidates have been popped, those that could be deleted are gone,
    the total counts the others, and each has its record. *)
Record progress (dir : list entry) (k : nat) (st : state) : Prop := {
  pr_files : files st = skipn k (candidates dir);
  pr_total : total_size st
             = (sum_sizes (filter cannot_delete (firstn k (candidates dir)))
                + sum_sizes (files st))%Z;
  pr_dir : log_dir st = without (filter can_delete (firstn k (candidates dir))) dir;
  pr_log : log st = map record_of (firstn k (candidates dir))
}.

(** Two log files that cannot be deleted, and a file that is not a log. *)
Definition stuck_logs : list entry :=
  [log_file "x.log" 5 40 false; log_file "notes.txt" 1 500 true;
   log_file "y.log" 6 40 false].

Lemma initial_progress (dir : list entry) : progress dir 0 (initial_state dir).
Proof.
  constructor; cbn [initial_state files total_size log_dir log firstn skipn filter map];
    try reflexivity.
  now rewrite without_nil.
Qed.

Lemma loop_body_progress (dir : list entry) (k : nat) (st : state) :
  progress dir k st ->
  files st <> [] ->
  progress dir (S k) (loop_body st).
Proof.
  intros [Hf Ht Hd Hl] Hne.
  destruct (files st) as [|oldest rest] eqn:E; [now elim Hne|].
  symmetry in Hf. destruct (skipn_cons_step _ _ _ _ Hf) as [Hs Hp].
  unfold loop_body. rewrite E.
  unfold can_delete, cannot_delete in *.
  destruct (removable oldest) eqn:Hok; constructor; cbn [files total_size log_dir log];
    rewrite ?Hp, ?filter_app, ?map_app; cbn [filter map];
    unfold can_delete, cannot_delete; rewrite ?Hok; cbn [negb]; rewrite ?app_nil_r.
  - now rewrite Hs.
  - rewrite Ht. cbn [sum_sizes]. lia.
  - now rewrite Hd, unlink_without.
  - rewrite Hl. unfold record_of. now rewrite Hok.
  - now rewrite Hs.
  - rewrite Ht, sum_sizes_app. cbn [sum_sizes]. lia.
  - exact Hd.
  - rewrite Hl. unfold record_of. now rewrite Hok.
Qed.

Lemma while_loop_progress (max_bytes : Z) (dir : list entry) :
  forall fuel k st,
    progress dir k st ->
    exists k', progress dir k' (while_loop fuel max_bytes st).
Proof.
  induction fuel as [|fuel IH]; intros k st Hpr; [now exists k|].
  cbn [while_loop]. destruct (loop_condition max_bytes st) eqn:Hc; [|now exists k].
  apply (IH (S k)), loop_body_progress; [exact Hpr|].
  unfold loop_condition in Hc. apply andb_true_iff in Hc.
  destruct (files st); [now destruct Hc|discriminate].
Qed.

(** The state in which the function returns satisfies [progress], and the
    loop has ended. *)
Lemma enforce_progress (dir : list entry) (max_bytes : Z) :
  exists k,
    progress dir k (enforce_max_folder_size dir (Some max_bytes))
    /\ loop_condition max_bytes (enforce_max_folder_size dir (Some max_bytes)) = false.
Proof.
  cbn [enforce_max_folder_size].
  destruct (while_loop_progress max_bytes dir (List.length (files (initial_state dir)))
              0 _ (initial_progress dir)) as [k Hk].
  exists k. split; [exact Hk|]. apply while_loop_ends, le_n.
Qed.






(** When the log files are within the limit, the loop is not entered. *)
Lemma within_limit (dir : list entry) (max_bytes : Z) :
  (folder_size dir <= max_bytes)%Z ->
  enforce_max_folder_size dir (Some max_bytes) = initial_state dir.
Proof.
  intros Hle. cbn [enforce_max_folder_size].
  assert (Hc : loop_condition max_bytes (initial_state dir) = false).
  { unfold loop_condition. cbn [initial_state total_size].
    rewrite (sum_sizes_Permutation _ _ (sorted_by_mtime_Permutation _)).
    fold (folder_size dir). now rewrite (proj2 (Z.ltb_ge _ _) Hle). }
  destruct (List.length (files (initial_state dir))); cbn [while_loop];
    [reflexivity|now rewrite Hc].
Qed.






(** X11: the function only ever removes log files that can be deleted:
    every entry it leaves was there before, and every entry that is not a
    log file, or that cannot be deleted, is still there. *)
Theorem only_deletable_logs_disappear (dir : list entry) (max_bytes : Z) :
  NoDup (map name dir) ->
  incl (log_dir (enforce_max_folder_size dir (Some max_bytes))) dir
  /\ (forall f,
        In f dir ->
        is_log_file f = false \/ removable f = false ->
        In f (log_dir (enforce_max_folder_size dir (Some max_bytes)))).
Proof.
  intros Hnd. destruct (enforce_progress dir max_bytes) as [k [[Hf Ht Hd Hl] _]].
  rewrite Hd. split.
  - intros f Hin. unfold without in Hin. now apply filter_In in Hin.
  - intros f Hin [Hlog|Hok].
    + apply without_keeps_others; try assumption.
      intros d Hdel. apply filter_In in Hdel. destruct Hdel as [Hdel _].
      rewrite <- (firstn_skipn k (candidates dir)). apply in_or_app. now left.
    + unfold without. apply filter_In. split; [exact Hin|].
      apply negb_true_iff, not_true_is_false. intros Hex.
      apply existsb_exists in Hex. destruct Hex as [d [Hdel E]].
      apply String.eqb_eq in E. apply filter_In in Hdel. destruct Hdel as [Hdel Hdok].
      assert (Hd' : In d dir).
      { apply (candidates_In dir d).
        rewrite <- (firstn_skipn k (candidates dir)). apply in_or_app. now left. }
      rewrite (same_name_same_entry dir f d Hnd Hin Hd' E) in Hok.
      unfold can_delete in Hdok. congruence.
Qed.

(** On [stuck_logs]: the text file stays. *)
Lemma only_deletable_logs_disappear_witness :
  In (log_file "notes.txt" 1 500 true)
     (log_dir (enforce_max_folder_size stuck_logs (Some 0%Z))).
Proof.
  apply (proj2 (only_deletable_logs_disappear stuck_logs 0
                  ltac:(repeat constructor; cbn; intuition discriminate))).
  - cbn. tauto.
  - left. reflexivity.
Defined.

(** X12: when the log files of the folder add up to at most the limit, the
    function deletes nothing and logs nothing, whatever the folder holds. *)
Theorem within_limit_nothing_happens (dir : list entry) (max_bytes : Z) :
  (folder_size dir <= max_bytes)%Z ->
  log_dir (enforce_max_folder_size dir (Some max_bytes)) = dir
  /\ log (enforce_max_folder_size dir (Some max_bytes)) = [].
Proof.
  intros Hle. now rewrite (within_limit dir max_bytes Hle).
Qed.

(** On [three_logs] with a limit of 60 bytes, their summed size. *)
Lemma within_limit_nothing_happens_witness :
  log_dir (enforce_max_folder_size three_logs (Some 60%Z)) = three_logs
  /\ log (enforce_max_folder_size three_logs (Some 60%Z)) = [].
Proof.
  apply (within_limit_nothing_happens three_logs 60). vm_compute. discriminate.
Defined.




End RetentionLaws.

(** * The scene file: [read_json_file] and [main] *)
Module Scenes.
Import TreeSearch Driver.

(** What leaves [read_json_file] or [main] as an exception. *)
Inductive failure : Type :=
| FileNotFoundError
| JSONDecodeError
| Builtin (e : exn).

Inductive outcome (A : Type) : Type :=
| Ok (a : A)
| Exc (e : failure).
Arguments Ok {A} a.
Arguments Exc {A} e.

(** An entry of a scanned folder: its full path, its last component, and
    whether it is a regular file. *)
Record dir_entry : Type := {
  path : string;
  file_name : string;
  regular : bool
}.

(** The part of the file system the two functions see: which paths exist,
    what a scan of a folder lists, in the order it lists it, and the text of
    the files that can be opened. *)
Record filesystem : Type := {
  path_exists : string -> bool;
  scan : string -> list dir_entry;
  read_text : string -> option string
}.

(** [folder.mkdir(parents=True, exist_ok=True)]. *)
Definition mkdir (folder : string) (fs : filesystem) : filesystem :=
  {| path_exists := fun p => if String.eqb p folder then true else path_exists fs p;
     scan := scan fs;
     read_text := read_text fs |}.

(** A file that can be opened is in a folder that exists. *)
Definition well_formed (parent : string -> string) (fs : filesystem) : Prop :=
  forall p text, read_text fs p = Some text -> path_exists fs (parent p) = true.

(** The lines [main] logs to list the candidates, numbered from [i]. *)
Fixpoint listing (i : Z) (json_files : list dir_entry) : list event :=
  match json_files with
  | [] => []
  | f :: rest =>
      Log INFO (Duration.str_of_Z i ++ ": " ++ file_name f)%string
      :: listing (i + 1) rest
  end.

(** What a run of [main] leaves: its effects in order, the file system, the
    exception that left it if any, and the console lines not read. *)
Record run : Type := {
  events : list event;
  fs_after : filesystem;
  raised : option failure;
  stdin_left : list string
}.

Section Library.
(** [pathlib]'s [parent] and [repr] of a path, the test of a name against the
    pattern [*.json], [json.loads] ([None] is [JSONDecodeError]) and [int]
    on text that is not ASCII are the library's. *)
Variable parent : string -> string.
Variable repr_path : string -> string.
Variable matches_json : string -> bool.
Variable json_loads : string -> option json.
Variable unicode_int : string -> option Z.

(** [read_json_file(file_path)]: the file system it leaves, what it logs, and
    the data or the exception.  A path that cannot be opened is a missing
    file. *)
Definition read_json_file (file_path : string) (fs : filesystem)
  : filesystem * list event * outcome json :=
  let '(fs, created) :=
    if path_exists fs (parent file_path) then (fs, [])
    else (mkdir (parent file_path) fs,
          [Log DEBUG ("Created folder: '" ++ parent file_path ++ "'")%string]) in
  match read_text fs file_path with
  | None =>
      (fs, created ++ [Log ERROR ("File not found: '" ++ file_path ++ "'")%string],
       Exc FileNotFoundError)
  | Some text =>
      match json_loads text with
      | None =>
          (fs,
           created ++ [Log ERROR ("Error decoding json file: '" ++ file_path ++ "'")%string],
           Exc JSONDecodeError)
      | Some data =>
          (fs,
           created
           ++ [Log DEBUG ("Successfully read json file: '" ++ file_path ++ "'")%string],
           Ok data)
      end
  end.

(** [C:/Users/<username>/AppData/Roaming/obs-studio/basic/scenes]; the
    messages show a path as it is written here. *)
Definition scenes_folder (username : string) : string :=
  ("C:/Users/" ++ username ++ "/AppData/Roaming/obs-studio/basic/scenes")%string.

(** Line 99: the regular files of the folder whose name matches [*.json]. *)
Definition json_files_of (fs : filesystem) (folder : string) : list dir_entry :=
  filter (fun f => matches_json (file_name f) && regular f) (scan fs folder).

(** [main()], for the user [username], on the interpreter [py] with
    [frames] nested calls still allowed where it calls the search. *)
Definition main (py : interpreter) (frames : nat) (username : string) (fs : filesystem)
           (stdin : list string) : run :=
  let folder := scenes_folder username in
  let start :=
    [Log DEBUG ("Detected username: " ++ dquote ++ username ++ dquote)%string;
     Log DEBUG ("Searching for scenes folder: " ++ dquote ++ folder ++ dquote)%string] in
  if negb (path_exists fs folder) then
    {| events :=
         start ++ [Log ERROR ("Scenes folder not found: " ++ dquote ++ folder ++ dquote)%string];
       fs_after := fs; raised := Some FileNotFoundError; stdin_left := stdin |}
  else
    let json_files := json_files_of fs folder in
    match json_files with
    | [] =>
        {| events :=
             start
             ++ [Log ERROR ("No JSON files found in " ++ dquote ++ folder ++ dquote)%string];
           fs_after := fs; raised := Some FileNotFoundError; stdin_left := stdin |}
    | _ =>
        let found :=
          Log INFO ("Found " ++ Duration.str_of_Z (Z.of_nat (List.length json_files))
                    ++ " JSON files in " ++ dquote ++ folder ++ dquote)%string
          :: listing 1 json_files in
        match select_file unicode_int (map path json_files) stdin with
        | (asked, Failed e) =>
            {| events := start ++ found ++ asked;
               fs_after := fs; raised := Some (Builtin e); stdin_left := [] |}
        | (asked, Selected selected_file stdin) =>
            let chosen :=
              [Log DEBUG ("selected_file=" ++ repr_path selected_file)%string] in
            match read_json_file selected_file fs with
            | (fs, reading, Exc e) =>
                {| events := start ++ found ++ asked ++ chosen ++ reading;
                   fs_after := fs; raised := Some e; stdin_left := stdin |}
            | (fs, reading, Ok data) =>
                match search_and_copy py frames data with
                | (policy, e) =>
                    {| events := start ++ found ++ asked ++ chosen ++ reading ++ policy;
                       fs_after := fs;
                       raised := option_map Builtin e;
                       stdin_left := stdin |}
                end
            end
        end
    end.

End Library.

End Scenes.

(** * Laws of [read_json_file] and [main] *)
Module ScenesLaws.
Import TreeSearch Driver Scenes.

(** A file system with two scene files and a folder that is not one. *)
Definition obs_folder : string := scenes_folder "ann".

Definition scene_a : dir_entry :=
  {| path := (obs_folder ++ "/a.json")%string; file_name := "a.json"; regular := true |}.
Definition scene_b : dir_entry :=
  {| path := (obs_folder ++ "/b.json")%string; file_name := "b.json"; regular := true |}.
Definition backup_dir : dir_entry :=
  {| path := (obs_folder ++ "/old.json")%string; file_name := "old.json"; regular := false |}.

Definition obs_fs : filesystem :=
  {| path_exists := fun p => String.eqb p obs_folder;
     scan := fun p => if String.eqb p obs_folder then [scene_a; backup_dir; scene_b] else [];
     read_text := fun p =>
       if String.eqb p (path scene_a) then Some "A"
       else if String.eqb p (path scene_b) then Some "B"
       else None |}.

(** Stand-ins for the library: every path is in [obs_folder], names ending
    in [.json] match, and the two texts parse to two documents. *)
Definition parent_obs (p : string) : string := obs_folder.
Definition repr_plain (p : string) : string := p.
Definition ends_in_json (n : string) : bool := endswith n ".json".
Definition loads_obs (text : string) : option json :=
  if String.eqb text "A" then Some two_entries
  else if String.eqb text "B" then Some small_scene
  else None.

(** An empty file system. *)
Definition empty_fs : filesystem :=
  {| path_exists := fun _ => false; scan := fun _ => []; read_text := fun _ => None |}.

(** *** Effects of the parts of [main] *)

Lemma clipboard_writes_app (evs evs' : list event) :
  clipboard_writes (evs ++ evs') = clipboard_writes evs ++ clipboard_writes evs'.
Proof.
  induction evs as [|[| | |] evs IH]; cbn; now rewrite ?IH.
Qed.

Lemma listing_quiet (json_files : list dir_entry) :
  forall i,
    clipboard_writes (listing i json_files) = []
    /\ prompts (listing i json_files) = 0%nat
    /\ errors (listing i json_files) = [].
Proof.
  induction json_files as [|f rest IH]; intros i; [now repeat split|].
  cbn. apply IH.
Qed.

Lemma select_loop_no_copy (unicode_int : string -> option Z)
      (json_files stdin : list string) :
  clipboard_writes (fst (select_loop unicode_int json_files stdin)) = [].
Proof.
  induction stdin as [|line stdin IH]; [reflexivity|].
  cbn [select_loop]. destruct (select_turn unicode_int json_files line); [reflexivity|].
  destruct (select_loop unicode_int json_files stdin). exact IH.
Qed.

Lemma select_file_no_copy (unicode_int : string -> option Z)
      (json_files stdin : list string) :
  clipboard_writes (fst (select_file unicode_int json_files stdin)) = [].
Proof.
  unfold select_file. destruct (List.length json_files =? 1)%nat; [reflexivity|].
  apply select_loop_no_copy.
Qed.

Lemma select_turn_member (unicode_int : string -> option Z)
      (json_files : list string) (line f : string) :
  select_turn unicode_int json_files line = inl f -> In f json_files.
Proof.
  unfold select_turn. destruct (py_int unicode_int line) as [k|]; [|discriminate].
  destruct (Z.leb_spec 1 k); destruct (Z.leb_spec k (Z.of_nat (List.length json_files)));
    cbn [andb]; intros E; try discriminate E.
  injection E as <-. apply nth_In. lia.
Qed.

Lemma select_loop_member (unicode_int : string -> option Z)
      (json_files stdin : list string) :
  forall evs f rest,
    select_loop unicode_int json_files stdin = (evs, Selected f rest) -> In f json_files.
Proof.
  induction stdin as [|line stdin IH]; intros evs f rest E; [discriminate E|].
  cbn [select_loop] in E. destruct (select_turn unicode_int json_files line) as [g|msg] eqn:Et.
  - injection E as _ <- _. now apply (select_turn_member unicode_int _ line).
  - destruct (select_loop unicode_int json_files stdin) as [evs' r]. injection E as _ ->.
    now apply (IH evs' f rest).
Qed.

(** The file selected is one of the candidates. *)
Lemma select_file_member (unicode_int : string -> option Z)
      (json_files stdin : list string) (evs : list event)
      (f : string) (rest : list string) :
  select_file unicode_int json_files stdin = (evs, Selected f rest) -> In f json_files.
Proof.
  unfold select_file. destruct (List.length json_files =? 1)%nat eqn:E1.
  - intros E. injection E as _ <- _.
    destruct json_files; [discriminate E1|now left].
  - apply select_loop_member.
Qed.

Lemma search_and_copy_writes (py : interpreter) (frames : nat) (data : json) :
  clipboard_writes (fst (search_and_copy py frames data))
  = match find_chunk_data_in_json py frames data None with
    | Return [c] => [c]
    | _ => []
    end.
Proof.
  unfold search_and_copy.
  destruct (find_chunk_data_in_json py frames data None) as [[|c [|c' l]]|e l]; reflexivity.
Qed.

Section Laws.
Variable parent : string -> string.
Variable repr_path : string -> string.
Variable matches_json : string -> bool.
Variable json_loads : string -> option json.
Variable unicode_int : string -> option Z.

Lemma read_json_file_facts (file_path : string) (fs fs' : filesystem)
      (evs : list event) (r : outcome json) :
  read_json_file parent json_loads file_path fs = (fs', evs, r) ->
  clipboard_writes evs = []
  /\ prompts evs = 0%nat
  /\ read_text fs' = read_text fs
  /\ forall data,
       r = Ok data ->
       exists text, read_text fs file_path = Some text /\ json_loads text = Some data.
Proof.
  unfold read_json_file.
  destruct (path_exists fs (parent file_path)); cbn [mkdir read_text];
    (destruct (read_text fs file_path) as [text|] eqn:Et;
     [destruct (json_loads text) as [data|] eqn:El|]);
    intros E; injection E as <- <- <-; cbn; repeat split; try discriminate;
    intros d [= <-]; now exists text.
Qed.

(** X15: without a scenes folder, or without a regular file in it whose name
    matches the pattern, [main] raises [FileNotFoundError] after logging one
    error: it asks nothing, reads no line of the console, leaves the file
    system as it is and copies nothing. *)
Theorem main_stops_without_candidates (py : interpreter) (frames : nat)
        (username : string) (fs : filesystem) (stdin : list string) :
  path_exists fs (scenes_folder username) = false
  \/ json_files_of matches_json fs (scenes_folder username) = [] ->
  raised (main parent repr_path matches_json json_loads unicode_int py frames
            username fs stdin)
  = Some FileNotFoundError
  /\ stdin_left (main parent repr_path matches_json json_loads unicode_int py frames
                   username fs stdin) = stdin
  /\ fs_after (main parent repr_path matches_json json_loads unicode_int py frames
                 username fs stdin) = fs
  /\ prompts (events (main parent repr_path matches_json json_loads unicode_int py frames
               username fs stdin))
     = 0%nat
  /\ clipboard_writes
       (events (main parent repr_path matches_json json_loads unicode_int py frames
               username fs stdin)) = []
  /\ List.length
       (errors (events (main parent repr_path matches_json json_loads unicode_int py frames
               username fs stdin)))
     = 1%nat.
Proof.
  intros H. unfold main.
  destruct (path_exists fs (scenes_folder username)) eqn:Ex; cbn [negb].
  - destruct H as [H|H]; [discriminate H|]. rewrite H. now repeat split.
  - now repeat split.
Qed.

(** X16: [main] calls the clipboard at most once; when it does, the value it
    hands over is the only element of the Match Set of a candidate file of
    the scenes folder, as that file reads and parses. *)
Theorem clipboard_gets_payload_of_a_candidate (py : interpreter) (frames : nat)
        (username : string) (fs : filesystem) (stdin : list string) :
  clipboard_writes
    (events (main parent repr_path matches_json json_loads unicode_int py frames
               username fs stdin)) = []
  \/ exists f text data c,
       In f (json_files_of matches_json fs (scenes_folder username))
       /\ read_text fs (path f) = Some text
       /\ json_loads text = Some data
       /\ find_chunk_data_in_json py frames data None = Return [c]
       /\ clipboard_writes
            (events (main parent repr_path matches_json json_loads unicode_int py frames
               username fs stdin))
          = [c].
Proof.
  unfold main.
  destruct (path_exists fs (scenes_folder username)); cbn [negb]; [|now left].
  destruct (json_files_of matches_json fs (scenes_folder username)) as [|f0 fl];
    [now left|].
  cbv beta iota zeta. remember (f0 :: fl) as json_files eqn:Hjf.
  pose proof (select_file_no_copy unicode_int (map path json_files) stdin) as Hask.
  pose proof (proj1 (listing_quiet json_files 1)) as Hlist.
  destruct (select_file unicode_int (map path json_files) stdin)
    as [asked [sel rest|e]] eqn:Es; cbn [fst] in Hask.
  - pose proof (select_file_member _ _ _ _ _ _ Es) as Hin.
    apply in_map_iff in Hin. destruct Hin as [f [Hp Hf]].
    destruct (read_json_file parent json_loads sel fs) as [[fs' reading] [data|e]] eqn:Er;
      destruct (read_json_file_facts _ _ _ _ _ Er) as [Hc [_ [_ Hd]]].
    + destruct (Hd data eq_refl) as [text [Ht Hl]].
      pose proof (search_and_copy_writes py frames data) as Hw.
      destruct (search_and_copy py frames data) as [policy e] eqn:Ep. cbn [fst] in Hw.
      cbn [events raised]. rewrite !clipboard_writes_app. cbn [clipboard_writes].
      rewrite Hlist, Hask, Hc, Hw. cbn [app].
      destruct (find_chunk_data_in_json py frames data None) as [[|c [|c' l]]|e' l] eqn:Ef;
        try now left.
      right. exists f, text, data, c. rewrite Hp. now repeat split.
    + left. cbn [events]. rewrite !clipboard_writes_app. cbn [clipboard_writes].
      now rewrite Hlist, Hask, Hc.
  - left. cbn [events]. rewrite !clipboard_writes_app. cbn [clipboard_writes].
    now rewrite Hlist, Hask.
Qed.

(** X17: on a path whose folder does not exist, [read_json_file] creates the
    folder and then fails all the same: it logs the creation, logs the
    missing file as an error and raises [FileNotFoundError], and the folder it
    made stays. *)
Theorem missing_folder_is_created_then_read_fails (file_path : string) (fs : filesystem) :
  well_formed parent fs ->
  path_exists fs (parent file_path) = false ->
  read_json_file parent json_loads file_path fs
  = (mkdir (parent file_path) fs,
     [Log DEBUG ("Created folder: '" ++ parent file_path ++ "'")%string;
      Log ERROR ("File not found: '" ++ file_path ++ "'")%string],
     Exc FileNotFoundError)
  /\ path_exists (mkdir (parent file_path) fs) (parent file_path) = true.
Proof.
  intros Hwf Hno. unfold read_json_file. rewrite Hno. cbn [mkdir read_text path_exists].
  destruct (read_text fs file_path) as [text|] eqn:Et.
  - rewrite (Hwf _ _ Et) in Hno. discriminate Hno.
  - split; [reflexivity|]. now rewrite String.eqb_refl.
Qed.

End Laws.

(** An empty file system: no scenes folder. *)
Lemma main_stops_without_candidates_witness :
  raised (main parent_obs repr_plain ends_in_json loads_obs int_of_fullwidth_two
            cpython311 998 "ann" empty_fs ["1"])
  = Some FileNotFoundError
  /\ stdin_left (main parent_obs repr_plain ends_in_json loads_obs int_of_fullwidth_two
                   cpython311 998 "ann" empty_fs ["1"])
     = ["1"].
Proof.
  destruct (main_stops_without_candidates parent_obs repr_plain ends_in_json loads_obs
              int_of_fullwidth_two cpython311 998 "ann" empty_fs ["1"]
              (or_introl eq_refl)) as [H1 [H2 _]].
  now split.
Defined.

(** Reading a file of a folder that does not exist. *)
Lemma missing_folder_is_created_then_read_fails_witness :
  path_exists (mkdir "logs" empty_fs) "logs" = true.
Proof.
  apply (proj2 (missing_folder_is_created_then_read_fails (fun _ => "logs") loads_obs
                  "logs/x.json" empty_fs
                  ltac:(intros p t H; discriminate H) eq_refl)).
Defined.

(** *** The number beside a file, typed back *)

Lemma scan_digits_step (c : ascii) (k : Z) (t : string) (n : nat) (acc : Z) :
  digit_value c = Some k ->
  scan_digits (String c t) false n acc = scan_digits t false (S n) (10 * acc + k)%Z.
Proof.
  intros Hd. cbn [scan_digits]. rewrite Hd.
  destruct (Ascii.eqb_spec c "_") as [->|_]; [discriminate Hd|reflexivity].
Qed.

Lemma scan_digits_decimal (d : Decimal.uint) :
  forall n p,
    scan_digits (NilEmpty.string_of_uint d) false n (Z.pos p)
    = Some (Z.pos (Pos.of_uint_acc d p),
            (n + String.length (NilEmpty.string_of_uint d))%nat, "").
Proof.
  induction d as [|d IH|d IH|d IH|d IH|d IH|d IH|d IH|d IH|d IH|d IH]; intros n p;
    cbn [NilEmpty.string_of_uint Pos.of_uint_acc String.length].
  - cbn. now rewrite Nat.add_0_r.
  - rewrite (scan_digits_step "0" 0 _ _ _ eq_refl).
    replace (10 * Z.pos p + 0)%Z with (Z.pos (10 * p)) by lia.
    rewrite IH. do 3 f_equal. lia.
  - rewrite (scan_digits_step "1" 1 _ _ _ eq_refl).
    replace (10 * Z.pos p + 1)%Z with (Z.pos (1 + 10 * p)) by lia.
    rewrite IH. do 3 f_equal. lia.
  - rewrite (scan_digits_step "2" 2 _ _ _ eq_refl).
    replace (10 * Z.pos p + 2)%Z with (Z.pos (2 + 10 * p)) by lia.
    rewrite IH. do 3 f_equal. lia.
  - rewrite (scan_digits_step "3" 3 _ _ _ eq_refl).
    replace (10 * Z.pos p + 3)%Z with (Z.pos (3 + 10 * p)) by lia.
    rewrite IH. do 3 f_equal. lia.
  - rewrite (scan_digits_step "4" 4 _ _ _ eq_refl).
    replace (10 * Z.pos p + 4)%Z with (Z.pos (4 + 10 * p)) by lia.
    rewrite IH. do 3 f_equal. lia.
  - rewrite (scan_digits_step "5" 5 _ _ _ eq_refl).
    replace (10 * Z.pos p + 5)%Z with (Z.pos (5 + 10 * p)) by lia.
    rewrite IH. do 3 f_equal. lia.
  - rewrite (scan_digits_step "6" 6 _ _ _ eq_refl).
    replace (10 * Z.pos p + 6)%Z with (Z.pos (6 + 10 * p)) by lia.
    rewrite IH. do 3 f_equal. lia.
  - rewrite (scan_digits_step "7" 7 _ _ _ eq_refl).
    replace (10 * Z.pos p + 7)%Z with (Z.pos (7 + 10 * p)) by lia.
    rewrite IH. do 3 f_equal. lia.
  - rewrite (scan_digits_step "8" 8 _ _ _ eq_refl).
    replace (10 * Z.pos p + 8)%Z with (Z.pos (8 + 10 * p)) by lia.
    rewrite IH. do 3 f_equal. lia.
  - rewrite (scan_digits_step "9" 9 _ _ _ eq_refl).
    replace (10 * Z.pos p + 9)%Z with (Z.pos (9 + 10 * p)) by lia.
    rewrite IH. do 3 f_equal. lia.
Qed.

(** A text that starts with a digit from 1 to 9 followed by decimal digits
    is read by [int] as the number it writes, up to the length [int]
    accepts. *)
Lemma is_ascii_decimal (d : Decimal.uint) : is_ascii (NilEmpty.string_of_uint d) = true.
Proof. induction d; cbn [NilEmpty.string_of_uint is_ascii]; now rewrite ?IHd. Qed.

Lemma py_int_digits (unicode_int : string -> option Z) (c : ascii) (k : positive)
      (d : Decimal.uint) :
  digit_value c = Some (Z.pos k) ->
  (S (String.length (NilEmpty.string_of_uint d)) <= max_str_digits)%nat ->
  py_int unicode_int (String c (NilEmpty.string_of_uint d))
  = Some (Z.pos (Pos.of_uint_acc d k)).
Proof.
  intros Hd Hlen.
  assert (Hasc : is_ascii (String c (NilEmpty.string_of_uint d)) = true).
  { cbn [is_ascii]. rewrite is_ascii_decimal, andb_true_r.
    destruct c as [[] [] [] [] [] [] [] []]; try discriminate Hd; reflexivity. }
  unfold py_int. rewrite Hasc.
  assert (Hpy : ascii_int (String c (NilEmpty.string_of_uint d))
                = match scan_digits (String c (NilEmpty.string_of_uint d)) false 0 0 with
                  | Some (value, digits, rest) =>
                      if (digits =? 0)%nat then None
                      else if (max_str_digits <? digits)%nat then None
                      else match skip_spaces rest with
                           | EmptyString => Some value
                           | _ => None
                           end
                  | None => None
                  end).
  { clear Hlen. generalize (NilEmpty.string_of_uint d). intros t.
    destruct c as [[] [] [] [] [] [] [] []]; try discriminate Hd; reflexivity. }
  rewrite Hpy, (scan_digits_step _ _ _ _ _ Hd). cbn [Z.mul Z.add].
  rewrite scan_digits_decimal. cbn [Nat.add Nat.eqb skip_spaces].
  now rewrite (proj2 (Nat.ltb_ge _ _) Hlen).
Qed.

(** [int(str(n))] is [n] for a positive [n] whose text [int] accepts. *)
Lemma py_int_str (unicode_int : string -> option Z) (p : positive) :
  (String.length (Duration.str_of_Z (Z.pos p)) <= max_str_digits)%nat ->
  py_int unicode_int (Duration.str_of_Z (Z.pos p)) = Some (Z.pos p).
Proof.
  unfold Duration.str_of_Z. cbn [Z.to_int NilZero.string_of_int].
  pose proof (DecimalPos.Unsigned.of_to p) as Hof.
  pose proof (DecimalPos.Unsigned.to_uint_nonnil p) as Hnil.
  pose proof (DurationLaws.to_uint_no_leading_zero p) as Hz.
  unfold NilZero.string_of_uint.
  destruct (Pos.to_uint p) as [|d|d|d|d|d|d|d|d|d|d];
    [now elim Hnil|now elim (Hz d)|..];
    cbn [NilEmpty.string_of_uint String.length]; intros Hlen;
    cbn [Pos.of_uint] in Hof; injection Hof as <-;
    now apply py_int_digits.
Qed.

Lemma listing_nth (json_files : list dir_entry) :
  forall i n f,
    nth_error json_files n = Some f ->
    nth_error (listing i json_files) n
    = Some (Log INFO (Duration.str_of_Z (i + Z.of_nat n) ++ ": " ++ file_name f)%string).
Proof.
  induction json_files as [|g rest IH]; intros i n f Hn; [now destruct n|].
  destruct n as [|n]; cbn [nth_error listing] in *.
  - injection Hn as ->. now rewrite Z.add_0_r.
  - rewrite (IH (i + 1)%Z n f Hn).
    now replace (i + 1 + Z.of_nat n)%Z with (i + Z.of_nat (S n))%Z by lia.
Qed.

(** X18: the number [main] logs beside a candidate is the answer that
    selects it: with two or more candidates, the line listing the candidate
    at position [n] shows the number [n + 1], and when that number, as
    [str] writes it, is the line typed at the prompt (and [int] accepts its
    length), the file selected is that candidate, after one prompt and
    without error. *)
Theorem listed_number_selects_its_file (unicode_int : string -> option Z)
        (json_files : list dir_entry) (n : nat) (f : dir_entry) (stdin : list string) :
  nth_error json_files n = Some f ->
  List.length json_files <> 1%nat ->
  (String.length (Duration.str_of_Z (Z.of_nat (S n))) <= max_str_digits)%nat ->
  nth_error (listing 1 json_files) n
  = Some (Log INFO (Duration.str_of_Z (Z.of_nat (S n)) ++ ": " ++ file_name f)%string)
  /\ select_file unicode_int (map path json_files) (Duration.str_of_Z (Z.of_nat (S n)) :: stdin)
     = ([Prompt prompt_text], Selected (path f) stdin).
Proof.
  intros Hn Hlen Hdigits. split.
  - rewrite (listing_nth json_files 1 n f Hn).
    now replace (1 + Z.of_nat n)%Z with (Z.of_nat (S n)) by lia.
  - unfold select_file. rewrite length_map, (proj2 (Nat.eqb_neq _ _) Hlen).
    cbn [select_loop].
    assert (Hk : py_int unicode_int (Duration.str_of_Z (Z.of_nat (S n))) = Some (Z.of_nat (S n))).
    { revert Hdigits. cbn [Z.of_nat]. apply py_int_str. }
    assert (Hrange : (1 <= Z.of_nat (S n) <= Z.of_nat (List.length (map path json_files)))%Z).
    { rewrite length_map.
      assert (n < List.length json_files)%nat
        by (apply nth_error_Some; rewrite Hn; discriminate).
      lia. }
    rewrite (select_turn_accepted _ _ _ _ Hk Hrange).
    replace (Z.to_nat (Z.of_nat (S n) - 1)) with n by lia.
    repeat f_equal. apply nth_error_nth. now rewrite nth_error_map, Hn.
Qed.

(** The second of three candidates. *)
Lemma listed_number_selects_its_file_witness :
  select_file int_of_fullwidth_two (map path [scene_a; scene_b; backup_dir]) ["2"; "x"]
  = ([Prompt prompt_text], Selected (path scene_b) ["x"]).
Proof.
  apply (proj2 (listed_number_selects_its_file int_of_fullwidth_two
                  [scene_a; scene_b; backup_dir] 1 scene_b
                  ["x"] eq_refl ltac:(discriminate) ltac:(vm_compute; lia))).
Defined.

(** X19: when the scenes folder holds two or more candidates and the
    console ends before any line is accepted, every line being rejected
    however [int] reads the text that is not ASCII, [main] raises [EOFError],
    which the selection loop does not catch: every line has been answered by
    an error record, the file system is as it was and nothing has been
    copied. *)
Theorem main_fails_when_the_console_ends
        (parent repr_path : string -> string) (matches_json : string -> bool)
        (json_loads : string -> option json) (unicode_int : string -> option Z)
        (py : interpreter) (frames : nat)
        (username : string) (fs : filesystem) (stdin : list string) :
  path_exists fs (scenes_folder username) = true ->
  (2 <= List.length (json_files_of matches_json fs (scenes_folder username)))%nat ->
  Forall (rejected unicode_int
            (map path (json_files_of matches_json fs (scenes_folder username))))
         stdin ->
  raised (main parent repr_path matches_json json_loads unicode_int py frames
            username fs stdin)
  = Some (Builtin EOFError)
  /\ fs_after (main parent repr_path matches_json json_loads unicode_int py frames
                 username fs stdin) = fs
  /\ clipboard_writes
       (events (main parent repr_path matches_json json_loads unicode_int py frames
               username fs stdin)) = []
  /\ List.length
       (errors (events (main parent repr_path matches_json json_loads unicode_int py frames
               username fs stdin)))
     = List.length stdin.
Proof.
  intros Hex Hlen Hbad. unfold main. rewrite Hex. cbn [negb].
  destruct (json_files_of matches_json fs (scenes_folder username)) as [|f0 fl];
    [cbn in Hlen; lia|].
  cbv beta iota zeta. remember (f0 :: fl) as json_files eqn:Hjf.
  destruct (listing_quiet json_files 1) as [Hlc [_ Hle]].
  unfold select_file. rewrite length_map.
  rewrite (proj2 (Nat.eqb_neq (List.length json_files) 1)) by lia.
  destruct (select_loop_console_ends _ _ _ Hbad) as [asked [Es He]].
  pose proof (select_loop_no_copy unicode_int (map path json_files) stdin) as Hask.
  rewrite Es in *. cbn [fst] in Hask. cbn [events raised fs_after].
  rewrite !clipboard_writes_app, !errors_app. cbn [clipboard_writes errors app].
  rewrite Hlc, Hle, Hask. cbn [app]. now rewrite He.
Qed.

(** Two candidates, and a console that holds "abc" and "7" only. *)
Lemma main_fails_when_the_console_ends_witness :
  raised (main parent_obs repr_plain (fun _ => true) loads_obs int_of_fullwidth_two
            cpython311 998 "ann" obs_fs ["abc"; "7"])
  = Some (Builtin EOFError).
Proof.
  apply (main_fails_when_the_console_ends parent_obs repr_plain (fun _ => true) loads_obs
           int_of_fullwidth_two cpython311 998 "ann" obs_fs ["abc"; "7"]).
  - reflexivity.
  - vm_compute. lia.
  - repeat constructor; now eexists.
Defined.

End ScenesLaws.
